(** * Per-user local-midnight scheduler

    A shallow embedding of [sql/0008_per_user_local_midnight_scheduler.sql]:
    the dedupe table [user_midnight_runs], the PL/pgSQL function
    [run_sessionize_for_users_crossing_midnight] and the cron statement
    that calls it, together with the maintenance DELETE of
    [sql/0009_verify_local_midnight_scheduler.sql].

    Conventions of the embedding.
    - A [TIMESTAMPTZ] is the number of microseconds since the epoch, a
      [DATE] the number of days since the epoch, both in [Z].  Instants
      are not range-checked.
    - The time zone database and the downstream function
      [sessionize_recent_visits] are not part of the migration: they are
      the variables of the section below.
    - PL/pgSQL runs the query of a FOR loop through a cursor: it fetches
      10 rows, runs the loop body on them, and goes on with fetches of
      50 rows until a fetch brings nothing.  A row of [profiles] is
      tested against the WHERE clause only when a fetch reaches it.
    - A PL/pgSQL function has no way to keep the effects of a statement
      that ended in an error: an error that no [EXCEPTION] block catches
      leaves the function, and the statement that called it is rolled
      back as a whole.  The function body is therefore a state-and-error
      computation, and [cron_job] wraps it in the commit-or-roll-back of
      the calling statement. *)

From stdpp Require Import base numbers list strings gmap.

Local Open Scope Z_scope.

#[local] Set Warnings "-clear-no-such-hyp".

(** ** SQL values *)

Definition uuid : Type := N.
Definition timestamptz : Type := Z.
Definition timestamp : Type := Z.
Definition date : Type := Z.

Definition usecs_per_minute : Z := 60000000.
Definition usecs_per_day : Z := 86400000000.
Definition int4_max : Z := 2147483647.
Definition int4_min : Z := -2147483648.

(** The rows PL/pgSQL asks of the cursor of a FOR loop: 10 with the
    first fetch, 50 with every later one. *)
Definition prefetch_first : nat := 10.
Definition prefetch_next : nat := 50.

(** Errors a statement can end in. *)
Inductive pg_error : Type :=
  | invalid_parameter_value (zone : string)
  | numeric_value_out_of_range
  | unique_violation
  | raise_exception (message : string).

Inductive result (A : Type) : Type :=
  | Ok (a : A)
  | Raise (e : pg_error).
Arguments Ok {A} a.
Arguments Raise {A} e.

Definition is_ok {A} (r : result A) : bool :=
  match r with Ok _ => true | Raise _ => false end.

(** [a + b] on INTEGER: out of range is an error, not a wrap-around. *)
Definition int4pl (a b : Z) : result Z :=
  if bool_decide (int4_min <= a + b <= int4_max) then Ok (a + b)
  else Raise numeric_value_out_of_range.

(** [MAKE_INTERVAL(mins => n)]: an interval with a time part only. *)
Definition make_interval_mins (n : Z) : Z := n * usecs_per_minute.

(** [ts::DATE] of a local timestamp: the day it falls in (floor). *)
Definition timestamp_date (ts : timestamp) : date := ts `div` usecs_per_day.

(** ** Tables *)

(** A row of [public.user_midnight_runs]. *)
Record midnight_run : Type := {
  user_id : uuid;
  local_date : date;
  ran_at : timestamptz
}.

(** A row of [public.profiles], as far as the scheduler reads it. *)
Record profile : Type := {
  id : uuid;
  timezone : option string
}.

(** PRIMARY KEY (user_id, local_date). *)
Definition pkey (r : midnight_run) : uuid * date := (user_id r, local_date r).

Definition runs_keys (t : list midnight_run) : list (uuid * date) := pkey <$> t.

(** The unique index lookup. *)
Definition pk_exists (k : uuid * date) (t : list midnight_run) : bool :=
  bool_decide (k ∈ runs_keys t).

(** A plain INSERT: the index rejects a second row with the key. *)
Definition insert_row (r : midnight_run) (t : list midnight_run)
  : result (list midnight_run) :=
  if pk_exists (pkey r) t then Raise unique_violation else Ok (t ++ [r]).

(** INSERT ... ON CONFLICT (user_id, local_date) DO NOTHING, with the
    ROW_COUNT it leaves. *)
Definition insert_on_conflict_do_nothing (r : midnight_run)
    (t : list midnight_run) : list midnight_run * Z :=
  match insert_row r t with
  | Ok t' => (t', 1)
  | Raise _ => (t, 0)
  end.

(** DELETE FROM user_midnight_runs WHERE ran_at < cutoff, with its
    ROW_COUNT. *)
Definition delete_runs_before (cutoff : timestamptz)
    (t : list midnight_run) : list midnight_run * Z :=
  (filter (λ r, ¬ (ran_at r < cutoff)) t,
   Z.of_nat (length (filter (λ r, ran_at r < cutoff) t))).

(** The dedupe step of the loop body taken alone: the INSERT, GET
    DIAGNOSTICS inserted = ROW_COUNT and the test [inserted > 0]. *)
Definition claim (now : timestamptz) (u : uuid) (d : date)
    (t : list midnight_run) : bool * list midnight_run :=
  let '(t', inserted) :=
    insert_on_conflict_do_nothing
      {| user_id := u; local_date := d; ran_at := now |} t in
  (bool_decide (inserted > 0), t').

(** Claims for one pair made one after the other, each at its own
    time, with the answer each one gets. *)
Fixpoint claim_in_turn (callers : list timestamptz) (u : uuid) (d : date)
    (t : list midnight_run) : list bool :=
  match callers with
  | [] => []
  | now :: rest =>
      (claim now u d t).1 :: claim_in_turn rest u d (claim now u d t).2
  end.

(** ** What a tick does, as seen from outside *)

Inductive event : Type :=
  | EClaim (u : uuid) (d : date) (won : bool)
  | ESessionize (u : uuid) (gap_threshold_minutes lookback_hours : Z)
                (raised : bool).

Definition is_call (e : event) : bool :=
  match e with ESessionize _ _ _ _ => true | EClaim _ _ _ => false end.

Definition is_won_claim (e : event) : bool :=
  match e with EClaim _ _ won => won | ESessionize _ _ _ _ => false end.

Definition calls (tr : list event) : list event := filter is_call tr.
Definition won_claims (tr : list event) : list event := filter is_won_claim tr.

Definition claim_attempts (tr : list event) : list (uuid * date) :=
  omap (λ e, match e with
             | EClaim u d _ => Some (u, d)
             | ESessionize _ _ _ _ => None
             end) tr.

Definition called_users (tr : list event) : list uuid :=
  omap (λ e, match e with
             | ESessionize u _ _ _ => Some u
             | EClaim _ _ _ => None
             end) tr.

Section Scheduler.

(** The tables [sessionize_recent_visits] works on. *)
Variable World : Type.

(** The time zone database: the UTC offset, in microseconds, in effect
    in a zone at an instant; [None] for a name that is not a zone. *)
Variable pg_timezone : string → option (timestamptz → Z).

(** [public.sessionize_recent_visits(user_id, gap, lookback)]. *)
Variable sessionize_recent_visits :
  uuid → Z → Z → World → result (Z * World).

(** [ts AT TIME ZONE zone]. *)
Definition at_time_zone (ts : timestamptz) (zone : string)
  : result timestamp :=
  match pg_timezone zone with
  | Some offset => Ok (ts + offset ts)
  | None => Raise (invalid_parameter_value zone)
  end.

(** [(ts AT TIME ZONE zone)::DATE]. *)
Definition local_date_at (ts : timestamptz) (zone : string) : result date :=
  match at_time_zone ts zone with
  | Ok l => Ok (timestamp_date l)
  | Raise e => Raise e
  end.

Record database : Type := {
  profiles : list profile;
  user_midnight_runs : list midnight_run;
  other_tables : World
}.

(** The state a running statement works on, and what it did so far. *)
Record exec : Type := {
  db : database;
  events : list event
}.

Definition M (A : Type) : Type := exec → result A * exec.

Definition ret {A} (a : A) : M A := λ s, (Ok a, s).

Definition bind {A B} (m : M A) (k : A → M B) : M B :=
  λ s, match m s with
       | (Ok a, s') => k a s'
       | (Raise e, s') => (Raise e, s')
       end.

Definition lift {A} (r : result A) : M A := λ s, (r, s).

Definition log (e : event) (s : exec) : exec :=
  {| db := db s; events := events s ++ [e] |}.

Definition set_runs (t : list midnight_run) (s : exec) : exec :=
  {| db := {| profiles := profiles (db s);
              user_midnight_runs := t;
              other_tables := other_tables (db s) |};
     events := events s |}.

Definition set_other (w : World) (s : exec) : exec :=
  {| db := {| profiles := profiles (db s);
              user_midnight_runs := user_midnight_runs (db s);
              other_tables := w |};
     events := events s |}.

Notation "'do' x <- m ; k" := (bind m (λ x, k))
  (at level 10, x name, m at level 100, k at level 200).

(** The date test of the loop query for a zone:
    ((v_now_utc AT TIME ZONE tz)::DATE) <> ((v_prev AT TIME ZONE tz)::DATE). *)
Definition crossed_midnight (v_now_utc v_prev : timestamptz) (zone : string)
  : result bool :=
  match local_date_at v_now_utc zone, local_date_at v_prev zone with
  | Ok d_now, Ok d_prev => Ok (bool_decide (d_now ≠ d_prev))
  | Raise e, _ => Raise e
  | _, Raise e => Raise e
  end.

(** The WHERE clause on one row of [profiles], with the row the query
    returns for it: a NULL time zone fails [IS NOT NULL]. *)
Definition where_clause (v_now_utc v_prev : timestamptz) (p : profile)
  : result (option (uuid * string)) :=
  match timezone p with
  | None => Ok None
  | Some zone =>
      match crossed_midnight v_now_utc v_prev zone with
      | Ok true => Ok (Some (id p, zone))
      | Ok false => Ok None
      | Raise e => Raise e
      end
  end.

(** SELECT p.id AS user_id, p.timezone FROM profiles p WHERE ...: the
    rows of the query when it is run to its end. *)
Fixpoint select_crossing (v_now_utc v_prev : timestamptz)
    (ps : list profile) : result (list (uuid * string)) :=
  match ps with
  | [] => Ok []
  | p :: ps' =>
      match where_clause v_now_utc v_prev p with
      | Raise e => Raise e
      | Ok row =>
          match select_crossing v_now_utc v_prev ps' with
          | Raise e => Raise e
          | Ok rs => Ok (option_list row ++ rs)
          end
      end
  end.

(** INSERT ... ON CONFLICT DO NOTHING; GET DIAGNOSTICS inserted. *)
Definition insert_run (v_now_utc : timestamptz) (u : uuid) (d : date)
  : M Z :=
  λ s,
    let '(t', inserted) :=
      insert_on_conflict_do_nothing
        {| user_id := u; local_date := d; ran_at := v_now_utc |}
        (user_midnight_runs (db s)) in
    (Ok inserted,
     log (EClaim u d (bool_decide (inserted > 0))) (set_runs t' s)).

(** PERFORM public.sessionize_recent_visits(...). *)
Definition perform_sessionize (u : uuid) (gap lookback : Z) : M unit :=
  λ s,
    match sessionize_recent_visits u gap lookback (other_tables (db s)) with
    | Ok (_, w') => (Ok (), log (ESessionize u gap lookback false) (set_other w' s))
    | Raise e => (Raise e, log (ESessionize u gap lookback true) s)
    end.

(** The body of the FOR loop, for the rows the query returned. *)
Fixpoint for_loop (gap_threshold_minutes lookback_hours : Z)
    (v_now_utc : timestamptz) (rs : list (uuid * string)) (runs : Z)
  : M Z :=
  match rs with
  | [] => ret runs
  | r :: rs' =>
      do new_local_date <- lift (local_date_at v_now_utc r.2);
      do inserted <- insert_run v_now_utc r.1 new_local_date;
      if bool_decide (inserted > 0) then
        do _ <- perform_sessionize r.1 gap_threshold_minutes lookback_hours;
        do runs' <- lift (int4pl runs 1);
        for_loop gap_threshold_minutes lookback_hours v_now_utc rs' runs'
      else
        for_loop gap_threshold_minutes lookback_hours v_now_utc rs' runs
  end.

(** FETCH count FROM the cursor of the loop query, standing before the
    rows [ps] of [profiles]: the scan goes on until [count] rows have
    passed the WHERE clause or the table is at its end, and stops there.
    The result is the rows fetched and the rows of [profiles] the cursor
    has not looked at. *)
Fixpoint fetch_crossing (v_now_utc v_prev : timestamptz)
    (ps : list profile) (count : nat) {struct ps}
  : result (list (uuid * string) * list profile) :=
  match count, ps with
  | O, _ => Ok ([], ps)
  | S _, [] => Ok ([], [])
  | S count', p :: ps' =>
      match where_clause v_now_utc v_prev p with
      | Raise e => Raise e
      | Ok None => fetch_crossing v_now_utc v_prev ps' count
      | Ok (Some r) =>
          match fetch_crossing v_now_utc v_prev ps' count' with
          | Raise e => Raise e
          | Ok (rs, rest) => Ok (r :: rs, rest)
          end
      end
  end.

(** FOR r IN SELECT ... LOOP ... END LOOP, by recursion on the rows of
    [profiles] the cursor has not looked at: [count] is the number of
    rows the fetch under way still asks for, [fetched] the rows it has
    so far.  An error of the WHERE clause ends the fetch, and with it
    the function, before the body is run on [fetched].  The row that
    completes a fetch is followed by the body on the rows of the fetch,
    and then by the next fetch; the end of the table ends the last
    fetch. *)
Fixpoint for_query (gap_threshold_minutes lookback_hours : Z)
    (v_now_utc v_prev : timestamptz) (ps : list profile) (count : nat)
    (fetched : list (uuid * string)) (runs : Z) {struct ps} : M Z :=
  match ps with
  | [] => for_loop gap_threshold_minutes lookback_hours v_now_utc fetched runs
  | p :: ps' =>
      do row <- lift (where_clause v_now_utc v_prev p);
      match row with
      | None =>
          for_query gap_threshold_minutes lookback_hours v_now_utc v_prev
            ps' count fetched runs
      | Some r =>
          match count with
          | S (S count') =>
              for_query gap_threshold_minutes lookback_hours v_now_utc v_prev
                ps' (S count') (fetched ++ [r]) runs
          | _ =>
              do runs' <- for_loop gap_threshold_minutes lookback_hours
                            v_now_utc (fetched ++ [r]) runs;
              for_query gap_threshold_minutes lookback_hours v_now_utc v_prev
                ps' prefetch_next [] runs'
          end
      end
  end.

(** The function; [now] is what NOW() returns in the calling
    transaction. *)
Definition run_sessionize_for_users_crossing_midnight
    (gap_threshold_minutes lookback_hours window_minutes : Z)
    (now : timestamptz) : M Z :=
  let v_now_utc := now in
  let v_prev := v_now_utc - make_interval_mins window_minutes in
  λ s,
    for_query gap_threshold_minutes lookback_hours v_now_utc v_prev
      (profiles (db s)) prefetch_first [] 0 s.

(** SELECT public.run_sessionize_for_users_crossing_midnight(g, l, w):
    the statement the cron job runs.  It commits what the function did
    when the function returns, and leaves the database as it found it
    when the function raised. *)
Definition cron_job (gap_threshold_minutes lookback_hours window_minutes : Z)
    (now : timestamptz) (d : database) : result Z * database * list event :=
  match run_sessionize_for_users_crossing_midnight
          gap_threshold_minutes lookback_hours window_minutes now
          {| db := d; events := [] |} with
  | (Ok n, s) => (Ok n, db s, events s)
  | (Raise e, s) => (Raise e, d, events s)
  end.

End Scheduler.

Arguments at_time_zone pg_timezone ts zone : assert.
Arguments local_date_at pg_timezone ts zone : assert.
Arguments crossed_midnight pg_timezone v_now_utc v_prev zone : assert.
Arguments where_clause pg_timezone v_now_utc v_prev p : assert.
Arguments select_crossing pg_timezone v_now_utc v_prev ps : assert.
Arguments profiles {World} d.
Arguments user_midnight_runs {World} d.
Arguments other_tables {World} d.
Arguments db {World} e.
Arguments events {World} e.
Arguments Build_database {World} profiles user_midnight_runs other_tables.
Arguments Build_exec {World} db events.
Arguments ret {World A} a s.
Arguments bind {World A B} m k s.
Arguments lift {World A} r s.
Arguments log {World} e s.
Arguments set_runs {World} t s.
Arguments set_other {World} w s.
Arguments insert_run {World} v_now_utc u d s.
Arguments perform_sessionize {World} sessionize_recent_visits u gap lookback s.
Arguments for_loop {World} pg_timezone sessionize_recent_visits
  gap_threshold_minutes lookback_hours v_now_utc rs runs s.
Arguments fetch_crossing pg_timezone v_now_utc v_prev ps count : assert.
Arguments for_query {World} pg_timezone sessionize_recent_visits
  gap_threshold_minutes lookback_hours v_now_utc v_prev ps count fetched
  runs s.
Arguments run_sessionize_for_users_crossing_midnight {World} pg_timezone
  sessionize_recent_visits gap_threshold_minutes lookback_hours
  window_minutes now s.
Arguments cron_job {World} pg_timezone sessionize_recent_visits
  gap_threshold_minutes lookback_hours window_minutes now d.

(** ** Ledger states that can arise *)

(** The table is created empty and changed only by an INSERT (plain or
    with ON CONFLICT), by the scheduler function (committed by the cron
    statement, or as the function left it when it raised) and by the
    maintenance DELETE. *)
Inductive reachable {World : Type}
    (pg_timezone : string → option (timestamptz → Z))
    (sessionize_recent_visits : uuid → Z → Z → World → result (Z * World))
  : list midnight_run → Prop :=
  | reachable_created :
      reachable pg_timezone sessionize_recent_visits []
  | reachable_insert r t t' :
      reachable pg_timezone sessionize_recent_visits t →
      insert_row r t = Ok t' →
      reachable pg_timezone sessionize_recent_visits t'
  | reachable_claim now u d t :
      reachable pg_timezone sessionize_recent_visits t →
      reachable pg_timezone sessionize_recent_visits (claim now u d t).2
  | reachable_tick g l w now (d : database World) :
      reachable pg_timezone sessionize_recent_visits (user_midnight_runs d) →
      reachable pg_timezone sessionize_recent_visits
        (user_midnight_runs
           (cron_job pg_timezone sessionize_recent_visits g l w now d).1.2)
  | reachable_in_tick g l w now (d : database World) :
      reachable pg_timezone sessionize_recent_visits (user_midnight_runs d) →
      reachable pg_timezone sessionize_recent_visits
        (user_midnight_runs
           (db (run_sessionize_for_users_crossing_midnight pg_timezone
                  sessionize_recent_visits g l w now
                  {| db := d; events := [] |}).2))
  | reachable_purge cutoff t :
      reachable pg_timezone sessionize_recent_visits t →
      reachable pg_timezone sessionize_recent_visits
        (delete_runs_before cutoff t).1.

(** ** The detector and the new candidates in the words of the design *)

(** The civil date of an instant under the offset in effect at that
    instant. *)
Definition civil_date (offset : timestamptz → Z) (t : timestamptz) : date :=
  (t + offset t) `div` usecs_per_day.

(** detect(now, window, tz): the civil dates at [now] and at
    [now - window] differ, each with the offset of its own instant. *)
Definition detect (offset : timestamptz → Z) (now : timestamptz)
    (window_minutes : Z) : Prop :=
  civil_date offset now
  ≠ civil_date offset (now - window_minutes * usecs_per_minute).

(** The (entity, date) pairs of the rows a tick loops over. *)
Definition candidate_pairs (pg_timezone : string → option (timestamptz → Z))
    (now : timestamptz) (rs : list (uuid * string)) : list (uuid * date) :=
  omap (λ r, match local_date_at pg_timezone now r.2 with
             | Ok d => Some (r.1, d)
             | Raise _ => None
             end) rs.

(** The candidates that are genuinely new: their pair is not in the
    ledger yet. *)
Definition genuinely_new (pairs : list (uuid * date))
    (t : list midnight_run) : gset (uuid * date) :=
  list_to_set pairs ∖ list_to_set (runs_keys t).

(** ** A small installation to run the scheduler on *)

Module Example.

Definition hour : Z := 3600000000.
Definition minute : Z := 60000000.

(** Three zones: UTC, a zone at UTC-5 all year, and a zone that moves
    from UTC+14 to UTC-10 at the epoch (a date line change, so the
    civil date there goes back by one day). *)
Definition tzdb (zone : string) : option (timestamptz → Z) :=
  if decide (zone = "UTC") then Some (λ _, 0)
  else if decide (zone = "America/Bogota") then Some (λ _, -5 * hour)
  else if decide (zone = "Example/Date_Line") then
    Some (λ t, if bool_decide (t < 0) then 14 * hour else -10 * hour)
  else None.

(** The downstream function keeps the list of the users it did. *)
Definition sessionize_ok (u : uuid) (gap lookback : Z) (w : list uuid)
  : result (Z * list uuid) := Ok (1, w ++ [u]).

(** The same, but it raises for one user. *)
Definition sessionize_failing (bad : uuid) (u : uuid) (gap lookback : Z)
    (w : list uuid) : result (Z * list uuid) :=
  if decide (u = bad) then Raise (raise_exception "sessionize failed")
  else Ok (1, w ++ [u]).

Definition alice : uuid := 1%N.
Definition bob : uuid := 2%N.
Definition carol : uuid := 3%N.

Definition bogota (u : uuid) : profile :=
  {| id := u; timezone := Some "America/Bogota" |}.

Definition empty_db (ps : list profile) : database (list uuid) :=
  {| profiles := ps; user_midnight_runs := []; other_tables := [] |}.

Definition utc (u : uuid) : profile :=
  {| id := u; timezone := Some "UTC" |}.

Definition date_line (u : uuid) : profile :=
  {| id := u; timezone := Some "Example/Date_Line" |}.

(** 00:05, 04:50 and 05:05 UTC of day 0. *)
Definition t_0005 : timestamptz := 5 * minute.
Definition t_0450 : timestamptz := 4 * hour + 50 * minute.
Definition t_0505 : timestamptz := 5 * hour + 5 * minute.

(** The tick of 05:05 UTC on an empty ledger, with a downstream
    function that works, and with one that raises for alice. *)
Definition tick_0505 (ps : list profile)
  : result Z * database (list uuid) * list event :=
  cron_job tzdb sessionize_ok 10 24 30 t_0505 (empty_db ps).

Definition failing_tick_0505 (ps : list profile)
  : result Z * database (list uuid) * list event :=
  cron_job tzdb (sessionize_failing alice) 10 24 30 t_0505 (empty_db ps).

End Example.

(** ** The cron schedule *)

(** The job is scheduled with '5,20,35,50 * * * *' (UTC): it is started
    at the beginning of the minutes 5, 20, 35 and 50 of every hour of
    every day. *)
Definition cron_minutes : list Z := [5; 20; 35; 50].

Definition cron_fires (t : timestamptz) : bool :=
  bool_decide (t `mod` usecs_per_minute = 0)
  && bool_decide ((t `div` usecs_per_minute) `mod` 60 ∈ cron_minutes).

(** An instant at which the wall clock of a zone shows 00:00:00. *)
Definition local_midnight (offset : timestamptz → Z) (m : timestamptz) : Prop :=
  (m + offset m) `mod` usecs_per_day = 0.

(** ** More of the trace *)

(** The pairs of the claims that were won, in the order of the trace. *)
Definition won_pairs (tr : list event) : list (uuid * date) :=
  omap (λ e, match e with
             | EClaim u d true => Some (u, d)
             | _ => None
             end) tr.

(** The row a won claim adds when the tick runs at [now]. *)
Definition run_row (now : timestamptz) (k : uuid * date) : midnight_run :=
  {| user_id := k.1; local_date := k.2; ran_at := now |}.

(** ** The verification queries *)

(** Query 6 of [sql/0009_verify_local_midnight_scheduler.sql] groups the
    ledger by [user_id]; these are the rows of one group and the
    aggregates COUNT, MIN(local_date) and MAX(local_date) of it.  The
    ORDER BY and LIMIT of the query, which choose among the groups, are
    not modelled. *)
Definition runs_of_user (u : uuid) (t : list midnight_run) : list midnight_run :=
  filter (λ r, user_id r = u) t.

Definition total_runs (u : uuid) (t : list midnight_run) : Z :=
  Z.of_nat (length (runs_of_user u t)).

Definition agg_min (l : list Z) : option Z :=
  foldr (λ x acc, Some (match acc with
                        | Some m => Z.min x m
                        | None => x
                        end)) None l.

Definition agg_max (l : list Z) : option Z :=
  foldr (λ x acc, Some (match acc with
                        | Some m => Z.max x m
                        | None => x
                        end)) None l.

Definition first_run_date (u : uuid) (t : list midnight_run) : option date :=
  agg_min (local_date <$> runs_of_user u t).

Definition last_run_date (u : uuid) (t : list midnight_run) : option date :=
  agg_max (local_date <$> runs_of_user u t).

(** ** The badges of a user card *)

(** [src/components/UserCard.tsx]: the interest badges the card renders,
    each with its React key, its variant and its text. *)
Module UserCard.

(** The fields of [User] the badge list is computed from;
    [sharedInterests] is optional. *)
Record User : Type := {
  activities : list string;
  sharedInterests : option (list string)
}.

Inductive variant : Type :=
  | variant_default
  | variant_outline.

#[global] Instance variant_eq_dec : EqDecision variant.
Proof. solve_decision. Defined.

Record badge : Type := {
  key : string;
  badge_variant : variant;
  text : string
}.

Definition shared_badge (interest : string) : badge :=
  {| key := interest; badge_variant := variant_default; text := interest |}.

Definition activity_badge (activity : string) : badge :=
  {| key := activity; badge_variant := variant_outline; text := activity |}.

(** user.sharedInterests && user.sharedInterests.length > 0 ? ... : ... *)
Definition interest_badges (user : User) : list badge :=
  match sharedInterests user with
  | Some shared =>
      if bool_decide (0 < length shared)%nat then
        (shared_badge <$> shared)
        ++ (activity_badge
              <$> take 2 (filter (λ a, a ∉ shared) (activities user)))
      else activity_badge <$> take 3 (activities user)
  | None => activity_badge <$> take 3 (activities user)
  end.

End UserCard.

(** A zone with daylight saving time, around the end of it: UTC-4 until
    06:00 UTC of day 0, when the clocks go back from 02:00 to 01:00, and
    UTC-5 from then on. *)
Module DstExample.

Definition fall_back_at : timestamptz := 6 * 3600000000.

Definition offset (t : timestamptz) : Z :=
  if bool_decide (t < fall_back_at) then -4 * 3600000000
  else -5 * 3600000000.

(** The midnight that follows, 05:00 UTC of day 1. *)
Definition next_midnight : timestamptz := usecs_per_day + 5 * 3600000000.

End DstExample.

(** Ten profiles at UTC-5, and a profile whose time zone is not a zone:
    what the first fetch of the cursor takes, and what stops a later
    one. *)
Module CursorExample.

Definition ten_users : list uuid := [1; 2; 3; 4; 5; 6; 7; 8; 9; 10]%N.

Definition ten_bogota : list profile := Example.bogota <$> ten_users.

Definition mars : profile :=
  {| id := 11%N; timezone := Some "Mars/Olympus" |}.

(** The first [n] of the ten profiles, followed by the profile with the
    unknown zone; the ledger is empty. *)
Definition unknown_after (n : nat) : database (list uuid) :=
  Example.empty_db (take n ten_bogota ++ [mars]).

(** The same profiles over the ledger that a tick at 05:05 UTC of day 0
    leaves for the ten users. *)
Definition unknown_after_ten_claimed : database (list uuid) :=
  {| profiles := ten_bogota ++ [mars];
     user_midnight_runs :=
       run_row Example.t_0505 <$> ((λ u, (u, 0)) <$> ten_users);
     other_tables := [] |}.

End CursorExample.

(** ** The dedupe table *)

Arguments runs_keys : simpl never.

Lemma pk_exists_true k t : pk_exists k t = true ↔ k ∈ runs_keys t.
Proof. unfold pk_exists. apply bool_decide_eq_true. Qed.

Lemma pk_exists_false k t : pk_exists k t = false ↔ k ∉ runs_keys t.
Proof. unfold pk_exists. apply bool_decide_eq_false. Qed.

Lemma runs_keys_app t1 t2 : runs_keys (t1 ++ t2) = runs_keys t1 ++ runs_keys t2.
Proof. unfold runs_keys. apply fmap_app. Qed.

Lemma elem_of_runs_keys_snoc k t r :
  k ∈ runs_keys (t ++ [r]) ↔ k ∈ runs_keys t ∨ k = pkey r.
Proof.
  rewrite runs_keys_app, elem_of_app. unfold runs_keys at 2. simpl.
  by rewrite list_elem_of_singleton.
Qed.

Ltac keys_snoc :=
  repeat match goal with
  | H : context [runs_keys (_ ++ [_])] |- _ =>
      setoid_rewrite elem_of_runs_keys_snoc in H
  end;
  try setoid_rewrite elem_of_runs_keys_snoc.

Lemma insert_row_absent r t :
  pkey r ∉ runs_keys t → insert_row r t = Ok (t ++ [r]).
Proof. intros H. unfold insert_row. apply pk_exists_false in H. by rewrite H. Qed.

Lemma insert_row_present r t :
  pkey r ∈ runs_keys t → insert_row r t = Raise unique_violation.
Proof. intros H. unfold insert_row. apply pk_exists_true in H. by rewrite H. Qed.

Lemma insert_on_conflict_absent r t :
  pkey r ∉ runs_keys t → insert_on_conflict_do_nothing r t = (t ++ [r], 1).
Proof.
  intros H. unfold insert_on_conflict_do_nothing. by rewrite insert_row_absent.
Qed.

Lemma insert_on_conflict_present r t :
  pkey r ∈ runs_keys t → insert_on_conflict_do_nothing r t = (t, 0).
Proof.
  intros H. unfold insert_on_conflict_do_nothing. by rewrite insert_row_present.
Qed.

Lemma claim_absent now u d t :
  (u, d) ∉ runs_keys t →
  claim now u d t
  = (true, t ++ [{| user_id := u; local_date := d; ran_at := now |}]).
Proof.
  intros H. unfold claim. by rewrite insert_on_conflict_absent.
Qed.

Lemma claim_present now u d t :
  (u, d) ∈ runs_keys t → claim now u d t = (false, t).
Proof.
  intros H. unfold claim. by rewrite insert_on_conflict_present.
Qed.

Lemma claim_keys now u d t :
  (u, d) ∈ runs_keys (claim now u d t).2.
Proof.
  destruct (decide ((u, d) ∈ runs_keys t)) as [Hin | Hout].
  - by rewrite claim_present.
  - rewrite claim_absent by done. simpl. rewrite runs_keys_app.
    apply elem_of_app. right. simpl. apply list_elem_of_singleton. done.
Qed.

(** Uniqueness of the key is kept by the index, whatever row is offered. *)
Lemma insert_row_unique r t t' :
  NoDup (runs_keys t) → insert_row r t = Ok t' → NoDup (runs_keys t').
Proof.
  intros Hnd. unfold insert_row.
  destruct (pk_exists (pkey r) t) eqn:Hex; [done |].
  intros [= <-]. apply pk_exists_false in Hex.
  rewrite runs_keys_app. apply NoDup_app. split; [done |]. split.
  - intros k Hk Hk'. simpl in Hk'. apply list_elem_of_singleton in Hk'.
    by subst k.
  - simpl. apply NoDup_singleton.
Qed.

Lemma insert_on_conflict_unique r t :
  NoDup (runs_keys t) → NoDup (runs_keys (insert_on_conflict_do_nothing r t).1).
Proof.
  intros Hnd. unfold insert_on_conflict_do_nothing.
  destruct (insert_row r t) as [t' | e] eqn:Hins; simpl; [| done].
  by eapply insert_row_unique.
Qed.

Lemma claim_unique now u d t :
  NoDup (runs_keys t) → NoDup (runs_keys (claim now u d t).2).
Proof.
  intros Hnd. unfold claim.
  pose proof (insert_on_conflict_unique
                {| user_id := u; local_date := d; ran_at := now |} t Hnd) as H.
  by destruct (insert_on_conflict_do_nothing _ t).
Qed.

Lemma delete_runs_before_unique cutoff t :
  NoDup (runs_keys t) → NoDup (runs_keys (delete_runs_before cutoff t).1).
Proof.
  intros Hnd. simpl. unfold runs_keys in *.
  eapply sublist_NoDup; [exact Hnd |].
  apply fmap_sublist, sublist_filter.
Qed.

(** ** Time zones and the detector *)

Lemma int4pl_Ok a b c : int4pl a b = Ok c → c = a + b.
Proof. unfold int4pl. case_bool_decide; congruence. Qed.

Lemma int4pl_in_range a b :
  int4_min <= a + b <= int4_max → int4pl a b = Ok (a + b).
Proof. intros H. unfold int4pl. by rewrite bool_decide_eq_true_2. Qed.

Section Detector.

Variable pg_timezone : string → option (timestamptz → Z).

Lemma local_date_at_zone ts zone offset :
  pg_timezone zone = Some offset →
  local_date_at pg_timezone ts zone = Ok (civil_date offset ts).
Proof.
  intros Hz. unfold local_date_at, at_time_zone. by rewrite Hz.
Qed.

Lemma local_date_at_unknown ts zone :
  pg_timezone zone = None →
  local_date_at pg_timezone ts zone = Raise (invalid_parameter_value zone).
Proof.
  intros Hz. unfold local_date_at, at_time_zone. by rewrite Hz.
Qed.

Lemma local_date_at_Ok ts zone d :
  local_date_at pg_timezone ts zone = Ok d →
  ∃ offset, pg_timezone zone = Some offset ∧ d = civil_date offset ts.
Proof.
  unfold local_date_at, at_time_zone.
  destruct (pg_timezone zone) as [offset |]; [| done].
  intros [= <-]. by exists offset.
Qed.

Lemma crossed_midnight_zone v_now v_prev zone offset :
  pg_timezone zone = Some offset →
  crossed_midnight pg_timezone v_now v_prev zone
  = Ok (bool_decide (civil_date offset v_now ≠ civil_date offset v_prev)).
Proof.
  intros Hz. unfold crossed_midnight.
  by rewrite !(local_date_at_zone _ _ _ Hz).
Qed.

Lemma crossed_midnight_unknown v_now v_prev zone :
  pg_timezone zone = None →
  crossed_midnight pg_timezone v_now v_prev zone
  = Raise (invalid_parameter_value zone).
Proof.
  intros Hz. unfold crossed_midnight.
  by rewrite !(local_date_at_unknown _ _ Hz).
Qed.

(** The rows of the loop query are the profiles with a time zone for
    which the date test holds, in the order of [profiles]. *)
Lemma select_crossing_rows v_now v_prev ps rs :
  select_crossing pg_timezone v_now v_prev ps = Ok rs →
  ∀ u zone,
    (u, zone) ∈ rs ↔
    ∃ p, p ∈ ps ∧ id p = u ∧ timezone p = Some zone
         ∧ crossed_midnight pg_timezone v_now v_prev zone = Ok true.
Proof.
  revert rs. induction ps as [| p ps IH]; intros rs; simpl.
  - intros [= <-] u zone. split.
    + intros H. by apply elem_of_nil in H.
    + intros (p & Hp & _). by apply elem_of_nil in Hp.
  - destruct (where_clause pg_timezone v_now v_prev p) as [row | e] eqn:Hw;
      [| done].
    destruct (select_crossing pg_timezone v_now v_prev ps) as [rs' | e];
      [| done].
    intros [= <-] u zone. specialize (IH rs' eq_refl u zone).
    rewrite elem_of_app, IH. unfold where_clause in Hw. split.
    + intros [Hrow | (q & Hq & Hrest)].
      * destruct (timezone p) as [zp |] eqn:Htz;
          [| injection Hw as <-; by apply elem_of_nil in Hrow].
        destruct (crossed_midnight pg_timezone v_now v_prev zp)
          as [[] | e] eqn:Hc; try done.
        -- injection Hw as <-. simpl in Hrow.
           apply list_elem_of_singleton in Hrow. injection Hrow as -> ->.
           exists p. split; [left |]. done.
        -- injection Hw as <-. by apply elem_of_nil in Hrow.
      * exists q. split; [by right | done].
    + intros (q & Hq & Hid & Htz & Hc).
      apply elem_of_cons in Hq as [-> | Hq].
      * left. rewrite Htz, Hc in Hw. injection Hw as <-. simpl.
        apply list_elem_of_singleton. by rewrite Hid.
      * right. by exists q.
Qed.

(** The query raises only for a row whose zone name is unknown. *)
Lemma select_crossing_total v_now v_prev ps :
  (∀ p zone, p ∈ ps → timezone p = Some zone →
             is_Some (pg_timezone zone)) →
  ∃ rs, select_crossing pg_timezone v_now v_prev ps = Ok rs.
Proof.
  induction ps as [| p ps IH]; intros Hall; simpl; [by eexists |].
  destruct IH as [rs ->].
  { intros q zone Hq. apply Hall. by right. }
  unfold where_clause. destruct (timezone p) as [zone |] eqn:Htz.
  - destruct (Hall p zone) as [offset Hz]; [by left | done |].
    rewrite (crossed_midnight_zone _ _ _ _ Hz).
    case_bool_decide; by eexists.
  - by eexists.
Qed.

End Detector.

(** ** Traces *)

Lemma calls_snoc tr e :
  calls (tr ++ [e]) = calls tr ++ (if is_call e then [e] else []).
Proof. unfold calls. rewrite filter_app. by destruct e. Qed.

Lemma won_claims_snoc tr e :
  won_claims (tr ++ [e]) = won_claims tr ++ (if is_won_claim e then [e] else []).
Proof. unfold won_claims. rewrite filter_app. by destruct e as [? ? []|]. Qed.

Lemma claim_attempts_snoc_claim tr u d won :
  claim_attempts (tr ++ [EClaim u d won]) = claim_attempts tr ++ [(u, d)].
Proof. unfold claim_attempts. by rewrite omap_app. Qed.

Lemma claim_attempts_snoc_call tr u g l raised :
  claim_attempts (tr ++ [ESessionize u g l raised]) = claim_attempts tr.
Proof. unfold claim_attempts. rewrite omap_app. simpl. apply app_nil_r. Qed.

Lemma called_users_snoc_claim tr u d won :
  called_users (tr ++ [EClaim u d won]) = called_users tr.
Proof. unfold called_users. rewrite omap_app. simpl. apply app_nil_r. Qed.

Lemma called_users_snoc_call tr u g l raised :
  called_users (tr ++ [ESessionize u g l raised]) = called_users tr ++ [u].
Proof. unfold called_users. by rewrite omap_app. Qed.

Lemma called_users_length tr : length (called_users tr) = length (calls tr).
Proof.
  induction tr as [| [u d won | u g l r] tr IH]; simpl; [done | done |].
  unfold called_users, calls in *. simpl. by rewrite IH.
Qed.

(** ** Genuinely new candidates *)

Arguments candidate_pairs : simpl never.
Arguments genuinely_new : simpl never.

Lemma genuinely_new_nil t : genuinely_new [] t = ∅.
Proof. unfold genuinely_new. set_solver. Qed.

Lemma genuinely_new_cons_old k pairs t :
  k ∈ runs_keys t → genuinely_new (k :: pairs) t = genuinely_new pairs t.
Proof. intros Hk. unfold genuinely_new. set_solver. Qed.

Lemma genuinely_new_cons_new k pairs t r :
  pkey r = k → k ∉ runs_keys t →
  size (genuinely_new (k :: pairs) t)
  = S (size (genuinely_new pairs (t ++ [r]))).
Proof.
  intros Hr Hk. unfold genuinely_new.
  assert (list_to_set (k :: pairs) ∖ list_to_set (runs_keys t)
          = ({[k]} : gset (uuid * date))
            ∪ (list_to_set pairs ∖ list_to_set (runs_keys (t ++ [r])))) as ->.
  { apply set_eq. intros x.
    rewrite elem_of_union, !elem_of_difference, !elem_of_list_to_set,
      elem_of_singleton, elem_of_cons, elem_of_runs_keys_snoc, Hr.
    destruct (decide (x = k)) as [-> | Hne]; naive_solver. }
  rewrite size_union, size_singleton; [done |].
  intros x. rewrite elem_of_singleton, elem_of_difference,
    !elem_of_list_to_set, elem_of_runs_keys_snoc, Hr.
  naive_solver.
Qed.

Lemma genuinely_new_empty pairs t :
  (∀ k, k ∈ pairs → k ∈ runs_keys t) → genuinely_new pairs t = ∅.
Proof. intros H. unfold genuinely_new. set_solver. Qed.

(** ** The loop, one iteration at a time *)

Section Loop.

Context {World : Type}.
Variable pg_timezone : string → option (timestamptz → Z).
Variable sessionize_recent_visits :
  uuid → Z → Z → World → result (Z * World).
Variables (gap lookback : Z) (now : timestamptz).

Local Abbreviation loop :=
  (for_loop pg_timezone sessionize_recent_visits gap lookback now).
Local Abbreviation ledger s := (user_midnight_runs (db s)).
Local Abbreviation run u d :=
  {| user_id := u; local_date := d; ran_at := now |}.
Local Abbreviation lost u d s :=
  (log (EClaim u d false) (set_runs (ledger s) s)).
Local Abbreviation won u d s :=
  (log (EClaim u d true) (set_runs (ledger s ++ [run u d]) s)).
Local Abbreviation called u w s :=
  (log (ESessionize u gap lookback false) (set_other w s)).
Local Abbreviation failed u s :=
  (log (ESessionize u gap lookback true) s).

Lemma insert_run_claim u d (s : exec World) :
  insert_run now u d s
  = (Ok (if (claim now u d (ledger s)).1 then 1 else 0),
     log (EClaim u d (claim now u d (ledger s)).1)
         (set_runs (claim now u d (ledger s)).2 s)).
Proof.
  unfold insert_run, claim, insert_on_conflict_do_nothing.
  by destruct (insert_row _ _).
Qed.

Lemma for_loop_zone_error u zone rs runs (s : exec World) e :
  local_date_at pg_timezone now zone = Raise e →
  loop ((u, zone) :: rs) runs s = (Raise e, s).
Proof. intros Hd. simpl. unfold bind, lift. simpl. by rewrite Hd. Qed.

Lemma for_loop_lost u zone rs runs (s : exec World) d :
  local_date_at pg_timezone now zone = Ok d →
  (u, d) ∈ runs_keys (ledger s) →
  loop ((u, zone) :: rs) runs s = loop rs runs (lost u d s).
Proof.
  intros Hd Hin. simpl. unfold bind, lift. simpl. rewrite Hd.
  rewrite insert_run_claim, claim_present by done. done.
Qed.

Lemma for_loop_won_raise u zone rs runs (s : exec World) d e :
  local_date_at pg_timezone now zone = Ok d →
  (u, d) ∉ runs_keys (ledger s) →
  sessionize_recent_visits u gap lookback (other_tables (db s)) = Raise e →
  loop ((u, zone) :: rs) runs s = (Raise e, failed u (won u d s)).
Proof.
  intros Hd Hout Hs. simpl. unfold bind, lift. simpl. rewrite Hd.
  rewrite insert_run_claim, claim_absent by done. simpl.
  unfold perform_sessionize. simpl. by rewrite Hs.
Qed.

Lemma for_loop_won_overflow u zone rs runs (s : exec World) d n w e :
  local_date_at pg_timezone now zone = Ok d →
  (u, d) ∉ runs_keys (ledger s) →
  sessionize_recent_visits u gap lookback (other_tables (db s)) = Ok (n, w) →
  int4pl runs 1 = Raise e →
  loop ((u, zone) :: rs) runs s = (Raise e, called u w (won u d s)).
Proof.
  intros Hd Hout Hs Hi. simpl. unfold bind, lift. simpl. rewrite Hd.
  rewrite insert_run_claim, claim_absent by done. simpl.
  unfold perform_sessionize. simpl. by rewrite Hs, Hi.
Qed.

Lemma for_loop_won_ok u zone rs runs (s : exec World) d n w :
  local_date_at pg_timezone now zone = Ok d →
  (u, d) ∉ runs_keys (ledger s) →
  sessionize_recent_visits u gap lookback (other_tables (db s)) = Ok (n, w) →
  int4_min <= runs + 1 <= int4_max →
  loop ((u, zone) :: rs) runs s = loop rs (runs + 1) (called u w (won u d s)).
Proof.
  intros Hd Hout Hs Hi. simpl. unfold bind, lift. simpl. rewrite Hd.
  rewrite insert_run_claim, claim_absent by done. simpl.
  unfold perform_sessionize. simpl. by rewrite Hs, int4pl_in_range.
Qed.

(** Reasoning on the loop follows the five ways an iteration can go. *)
Lemma for_loop_cases
    (P : list (uuid * string) → Z → exec World → result Z * exec World → Prop) :
  (∀ runs s, P [] runs s (Ok runs, s)) →
  (∀ u zone rs runs s e,
      local_date_at pg_timezone now zone = Raise e →
      P ((u, zone) :: rs) runs s (Raise e, s)) →
  (∀ u zone rs runs s d,
      local_date_at pg_timezone now zone = Ok d →
      (u, d) ∈ runs_keys (ledger s) →
      P rs runs (lost u d s) (loop rs runs (lost u d s)) →
      P ((u, zone) :: rs) runs s (loop rs runs (lost u d s))) →
  (∀ u zone rs runs s d e,
      local_date_at pg_timezone now zone = Ok d →
      (u, d) ∉ runs_keys (ledger s) →
      sessionize_recent_visits u gap lookback (other_tables (db s))
      = Raise e →
      P ((u, zone) :: rs) runs s (Raise e, failed u (won u d s))) →
  (∀ u zone rs runs s d n w e,
      local_date_at pg_timezone now zone = Ok d →
      (u, d) ∉ runs_keys (ledger s) →
      sessionize_recent_visits u gap lookback (other_tables (db s))
      = Ok (n, w) →
      int4pl runs 1 = Raise e →
      P ((u, zone) :: rs) runs s (Raise e, called u w (won u d s))) →
  (∀ u zone rs runs s d n w,
      local_date_at pg_timezone now zone = Ok d →
      (u, d) ∉ runs_keys (ledger s) →
      sessionize_recent_visits u gap lookback (other_tables (db s))
      = Ok (n, w) →
      int4_min <= runs + 1 <= int4_max →
      P rs (runs + 1) (called u w (won u d s))
        (loop rs (runs + 1) (called u w (won u d s))) →
      P ((u, zone) :: rs) runs s
        (loop rs (runs + 1) (called u w (won u d s)))) →
  ∀ rs runs s, P rs runs s (loop rs runs s).
Proof.
  intros Hnil Hzone Hlost Hraise Hover Hok.
  induction rs as [| [u zone] rs IH]; intros runs s; [apply Hnil |].
  destruct (local_date_at pg_timezone now zone) as [d | e] eqn:Hd.
  2: { rewrite (for_loop_zone_error _ _ _ _ _ _ Hd). by apply Hzone. }
  destruct (decide ((u, d) ∈ runs_keys (ledger s))) as [Hin | Hout].
  { rewrite (for_loop_lost _ _ _ _ _ _ Hd Hin). by apply Hlost. }
  destruct (sessionize_recent_visits u gap lookback (other_tables (db s)))
    as [[n w] | e] eqn:Hs.
  2: { rewrite (for_loop_won_raise _ _ _ _ _ _ _ Hd Hout Hs).
       by apply Hraise. }
  destruct (int4pl runs 1) as [runs' | e] eqn:Hi.
  2: { rewrite (for_loop_won_overflow _ _ _ _ _ _ _ _ _ Hd Hout Hs Hi).
       by eapply Hover. }
  assert (int4_min <= runs + 1 <= int4_max) as Hr.
  { unfold int4pl in Hi. by case_bool_decide. }
  rewrite (for_loop_won_ok _ _ _ _ _ _ _ _ Hd Hout Hs Hr).
  by eapply Hok.
Qed.

(** *** What the loop keeps and what it adds *)

Lemma for_loop_profiles rs runs (s : exec World) :
  profiles (db (loop rs runs s).2) = profiles (db s).
Proof.
  apply (for_loop_cases
           (λ rs runs s out, profiles (db out.2) = profiles (db s)));
    simpl; intros; done.
Qed.

Lemma for_loop_ledger_grows rs runs (s : exec World) k :
  k ∈ runs_keys (ledger s) → k ∈ runs_keys (ledger (loop rs runs s).2).
Proof.
  revert k.
  apply (for_loop_cases
           (λ rs runs s out, ∀ k, k ∈ runs_keys (ledger s) →
                                  k ∈ runs_keys (ledger out.2)));
    simpl; intros; try done;
    try match goal with H : ∀ k, _ → _ |- _ => apply H; simpl end;
    rewrite ?runs_keys_app, ?elem_of_app; auto.
Qed.

Lemma won_unique u d (t : list midnight_run) :
  NoDup (runs_keys t) → (u, d) ∉ runs_keys t →
  NoDup (runs_keys (t ++ [run u d])).
Proof.
  intros Hnd Hout. eapply insert_row_unique; [exact Hnd |].
  by apply insert_row_absent.
Qed.

Lemma for_loop_unique rs runs (s : exec World) :
  NoDup (runs_keys (ledger s)) →
  NoDup (runs_keys (ledger (loop rs runs s).2)).
Proof.
  apply (for_loop_cases
           (λ rs runs s out, NoDup (runs_keys (ledger s)) →
                             NoDup (runs_keys (ledger out.2))));
    simpl; intros; try done; auto using won_unique.
Qed.

(** When the function returns, the count it returns is the number of
    downstream calls, of won claims and of rows added. *)
Lemma for_loop_counts rs runs (s : exec World) n :
  (loop rs runs s).1 = Ok n →
  n - runs = Z.of_nat (length (calls (events (loop rs runs s).2)))
             - Z.of_nat (length (calls (events s)))
  ∧ n - runs = Z.of_nat (length (won_claims (events (loop rs runs s).2)))
               - Z.of_nat (length (won_claims (events s)))
  ∧ n - runs = Z.of_nat (length (ledger (loop rs runs s).2))
               - Z.of_nat (length (ledger s)).
Proof.
  revert n.
  apply (for_loop_cases
    (λ rs runs s out, ∀ n, out.1 = Ok n →
       n - runs = Z.of_nat (length (calls (events out.2)))
                  - Z.of_nat (length (calls (events s)))
       ∧ n - runs = Z.of_nat (length (won_claims (events out.2)))
                    - Z.of_nat (length (won_claims (events s)))
       ∧ n - runs = Z.of_nat (length (ledger out.2))
                    - Z.of_nat (length (ledger s))));
    simpl; intros; simplify_eq; try lia;
    match goal with
    | IH : ∀ n, _ → _, Hn : _ = Ok _ |- _ => specialize (IH _ Hn)
    end;
    simpl in *;
    rewrite ?calls_snoc, ?won_claims_snoc, ?length_app in *;
    simpl in *; rewrite ?length_app, ?Nat.add_0_r in *; simpl in *; lia.
Qed.

(** A downstream call that raised is the end of the function: a
    function that returns has made no such call. *)
Lemma for_loop_Ok_no_raise rs runs (s : exec World) n u g l :
  (loop rs runs s).1 = Ok n →
  ESessionize u g l true ∈ events (loop rs runs s).2 →
  ESessionize u g l true ∈ events s.
Proof.
  revert n.
  apply (for_loop_cases
    (λ rs runs s out, ∀ n, out.1 = Ok n →
       ESessionize u g l true ∈ events out.2 →
       ESessionize u g l true ∈ events s));
    simpl; intros; simplify_eq; try done;
    match goal with
    | IH : ∀ n, _ → _ → _, Hn : _ = Ok _, Hin : _ ∈ _ |- _ =>
        specialize (IH _ Hn Hin)
    end;
    simpl in *;
    repeat match goal with
    | H : _ ∈ _ ++ [_] |- _ =>
        apply elem_of_app in H as [H | H];
        [| apply list_elem_of_singleton in H; discriminate H]
    end; done.
Qed.

(** A claim is won only for a pair the ledger did not hold. *)
Lemma for_loop_won_fresh rs runs (s : exec World) u d :
  EClaim u d true ∈ events (loop rs runs s).2 →
  EClaim u d true ∈ events s ∨ (u, d) ∉ runs_keys (ledger s).
Proof.
  apply (for_loop_cases
    (λ rs runs s out,
       EClaim u d true ∈ events out.2 →
       EClaim u d true ∈ events s ∨ (u, d) ∉ runs_keys (ledger s)));
    simpl; intros; auto;
    repeat match goal with
    | IH : ?A → _, Hin : ?A |- _ => specialize (IH Hin); simpl in IH
    end;
    keys_snoc; set_unfold; naive_solver.
Qed.

(** A function that returns has attempted one claim per row. *)
Lemma for_loop_attempts_length rs runs (s : exec World) n :
  (loop rs runs s).1 = Ok n →
  length (claim_attempts (events (loop rs runs s).2))
  = (length (claim_attempts (events s)) + length rs)%nat.
Proof.
  revert n.
  apply (for_loop_cases
    (λ rs runs s out, ∀ n, out.1 = Ok n →
       length (claim_attempts (events out.2))
       = (length (claim_attempts (events s)) + length rs)%nat));
    simpl; intros; simplify_eq; try lia;
    match goal with
    | IH : ∀ n, _ → _, Hn : _ = Ok _ |- _ => rewrite (IH _ Hn)
    end;
    simpl;
    rewrite ?claim_attempts_snoc_call, ?claim_attempts_snoc_claim,
      ?length_app; simpl; lia.
Qed.

(** The pair of a claim is the row's user and the row's date at
    [now]. *)
Lemma for_loop_attempts rs runs (s : exec World) u d :
  (u, d) ∈ claim_attempts (events (loop rs runs s).2) →
  (u, d) ∈ claim_attempts (events s)
  ∨ ∃ zone, (u, zone) ∈ rs ∧ local_date_at pg_timezone now zone = Ok d.
Proof.
  apply (for_loop_cases
    (λ rs runs s out,
       (u, d) ∈ claim_attempts (events out.2) →
       (u, d) ∈ claim_attempts (events s)
       ∨ ∃ zone, (u, zone) ∈ rs
                 ∧ local_date_at pg_timezone now zone = Ok d));
    simpl; intros; auto;
    try match goal with
    | IH : _ → _ ∨ _, Hin : _ ∈ claim_attempts (events _) |- _ =>
        specialize (IH Hin); simpl in IH; rename IH into Hin'
    end;
    repeat match goal with
    | H : context [claim_attempts (_ ++ [_])] |- _ =>
        rewrite ?claim_attempts_snoc_call, ?claim_attempts_snoc_claim in H
    end;
    repeat match goal with
    | H : _ ∨ _ |- _ => destruct H as [H | (zone' & ? & ?)]
    | H : _ ∈ _ ++ [_] |- _ =>
        apply elem_of_app in H as [H | H];
        [| apply list_elem_of_singleton in H; simplify_eq]
    end; auto;
    right; eexists; (split; [| eassumption]);
    solve [by left | by right].
Qed.

(** A row the function added carries the date at [now] of one of the
    rows of the query, and [now] as [ran_at]. *)
Lemma for_loop_rows rs runs (s : exec World) r :
  r ∈ ledger (loop rs runs s).2 →
  r ∈ ledger s
  ∨ ∃ zone, (user_id r, zone) ∈ rs
            ∧ local_date_at pg_timezone now zone = Ok (local_date r)
            ∧ ran_at r = now.
Proof.
  apply (for_loop_cases
    (λ rs runs s out,
       r ∈ ledger out.2 →
       r ∈ ledger s
       ∨ ∃ zone, (user_id r, zone) ∈ rs
                 ∧ local_date_at pg_timezone now zone = Ok (local_date r)
                 ∧ ran_at r = now));
    simpl; intros; auto;
    try match goal with
    | IH : _ → _ ∨ _, Hin : _ ∈ ledger _ |- _ =>
        specialize (IH Hin); simpl in IH; rename IH into Hin'
    end;
    repeat match goal with
    | H : _ ∨ _ |- _ => destruct H as [H | (zone' & ? & ? & ?)]
    | H : _ ∈ _ ++ [_] |- _ =>
        apply elem_of_app in H as [H | H];
        [| apply list_elem_of_singleton in H; subst r; simpl]
    end; auto;
    right; eexists; (split; [| split; [eassumption | done]]);
    solve [by left | by right].
Qed.

Lemma candidate_pairs_cons u zone rs d :
  local_date_at pg_timezone now zone = Ok d →
  candidate_pairs pg_timezone now ((u, zone) :: rs)
  = (u, d) :: candidate_pairs pg_timezone now rs.
Proof. intros Hd. unfold candidate_pairs. simpl. by rewrite Hd. Qed.

Lemma elem_of_candidate_pairs rs u d :
  (u, d) ∈ candidate_pairs pg_timezone now rs ↔
  ∃ zone, (u, zone) ∈ rs ∧ local_date_at pg_timezone now zone = Ok d.
Proof.
  unfold candidate_pairs. rewrite list_elem_of_omap. split.
  - intros ([u' zone] & Hin & Heq). simpl in Heq.
    destruct (local_date_at pg_timezone now zone) eqn:Hd; simplify_eq.
    by exists zone.
  - intros (zone & Hin & Hd). exists (u, zone). simpl. by rewrite Hd.
Qed.

(** When the function returns, every row of the query has its pair
    in the ledger. *)
Lemma for_loop_claimed_after rs runs (s : exec World) n u zone :
  (loop rs runs s).1 = Ok n →
  (u, zone) ∈ rs →
  ∃ d, local_date_at pg_timezone now zone = Ok d
       ∧ (u, d) ∈ runs_keys (ledger (loop rs runs s).2).
Proof.
  revert n.
  apply (for_loop_cases
    (λ rs runs s out, ∀ n, out.1 = Ok n → (u, zone) ∈ rs →
       ∃ d, local_date_at pg_timezone now zone = Ok d
            ∧ (u, d) ∈ runs_keys (ledger out.2)));
    simpl; intros; simplify_eq; try done.
  - by match goal with H : _ ∈ [] |- _ => apply elem_of_nil in H end.
  - match goal with H : _ ∈ _ :: _ |- _ =>
      apply elem_of_cons in H as [Heq | Hin] end.
    + simplify_eq. eexists. split; [eassumption |].
      by apply for_loop_ledger_grows.
    + eauto.
  - match goal with H : _ ∈ _ :: _ |- _ =>
      apply elem_of_cons in H as [Heq | Hin] end.
    + simplify_eq. eexists. split; [eassumption |].
      apply for_loop_ledger_grows. simpl.
      apply elem_of_runs_keys_snoc. by right.
    + eauto.
Qed.

(** When the ledger holds the pair of every row, the function claims
    and calls nothing, and returns the count it started from. *)
Lemma for_loop_all_claimed rs runs (s : exec World) :
  (∀ u zone, (u, zone) ∈ rs →
     ∃ d, local_date_at pg_timezone now zone = Ok d
          ∧ (u, d) ∈ runs_keys (ledger s)) →
  loop rs runs s
  = (Ok runs,
     {| db := db s;
        events := events s
                  ++ ((λ k, EClaim k.1 k.2 false)
                        <$> candidate_pairs pg_timezone now rs) |}).
Proof.
  revert s. induction rs as [| [u zone] rs IH]; intros s Hall.
  - simpl. rewrite app_nil_r. by destruct s.
  - destruct (Hall u zone) as (d & Hd & Hin); [by left |].
    rewrite (candidate_pairs_cons _ _ _ _ Hd).
    rewrite (for_loop_lost _ _ _ _ _ _ Hd Hin).
    rewrite IH.
    + destruct s as [[ps t w] ev]. simpl. by rewrite <- app_assoc.
    + intros u' zone' Hin'. simpl. apply Hall. by right.
Qed.

(** The count is the number of genuinely new pairs among the rows. *)
Lemma for_loop_new_count rs runs (s : exec World) n :
  (loop rs runs s).1 = Ok n →
  n - runs
  = Z.of_nat (size (genuinely_new (candidate_pairs pg_timezone now rs)
                                  (ledger s))).
Proof.
  revert n.
  apply (for_loop_cases
    (λ rs runs s out, ∀ n, out.1 = Ok n →
       n - runs
       = Z.of_nat (size (genuinely_new (candidate_pairs pg_timezone now rs)
                                       (ledger s)))));
    simpl; intros; simplify_eq.
  - rewrite genuinely_new_nil, size_empty. lia.
  - erewrite candidate_pairs_cons, genuinely_new_cons_old by eassumption.
    eauto.
  - erewrite candidate_pairs_cons by eassumption.
    erewrite (genuinely_new_cons_new _ _ _ (run u d)) by done.
    match goal with
    | IH : ∀ n, _ → _, Hn : _ = Ok _ |- _ => specialize (IH _ Hn)
    end.
    simpl in *. lia.
Qed.

Lemma candidate_pairs_app rs1 rs2 :
  candidate_pairs pg_timezone now (rs1 ++ rs2)
  = candidate_pairs pg_timezone now rs1 ++ candidate_pairs pg_timezone now rs2.
Proof. unfold candidate_pairs. apply omap_app. Qed.

(** A downstream call that raised is the last thing the loop did: the
    claims attempted are those of the rows up to the one it was made
    for, and the rows after that one got no claim. *)
Lemma for_loop_raised_call rs runs (s : exec World) u g l :
  ESessionize u g l true ∈ events (loop rs runs s).2 →
  ESessionize u g l true ∈ events s
  ∨ ∃ rs1 zone rs2 tr0,
      rs = rs1 ++ (u, zone) :: rs2
      ∧ events (loop rs runs s).2 = tr0 ++ [ESessionize u g l true]
      ∧ claim_attempts (events (loop rs runs s).2)
        = claim_attempts (events s)
          ++ candidate_pairs pg_timezone now (rs1 ++ [(u, zone)]).
Proof.
  apply (for_loop_cases
    (λ rs runs s out,
       ESessionize u g l true ∈ events out.2 →
       ESessionize u g l true ∈ events s
       ∨ ∃ rs1 zone rs2 tr0,
           rs = rs1 ++ (u, zone) :: rs2
           ∧ events out.2 = tr0 ++ [ESessionize u g l true]
           ∧ claim_attempts (events out.2)
             = claim_attempts (events s)
               ++ candidate_pairs pg_timezone now (rs1 ++ [(u, zone)])));
    simpl.
  - auto.
  - auto.
  - intros u0 zone0 rs0 runs0 s0 d Hd Hin IH Hraised.
    destruct (IH Hraised)
      as [Hold | (rs1 & z1 & rs2 & tr0 & -> & Hev & Hatt)].
    + left. set_unfold. naive_solver.
    + right. exists ((u0, zone0) :: rs1), z1, rs2, tr0.
      split; [done |]. split; [done |].
      rewrite Hatt, claim_attempts_snoc_claim, <- app_assoc. simpl.
      by rewrite (candidate_pairs_cons _ _ _ _ Hd).
  - intros u0 zone0 rs0 runs0 s0 d e Hd Hout Hs Hraised.
    apply elem_of_app in Hraised as [Hold | Hlast].
    + left. set_unfold. naive_solver.
    + apply list_elem_of_singleton in Hlast. simplify_eq.
      right. exists [], zone0, rs0, (events s0 ++ [EClaim u0 d true]).
      split; [done |]. split; [done |].
      rewrite claim_attempts_snoc_call, claim_attempts_snoc_claim. simpl.
      by rewrite (candidate_pairs_cons _ _ _ _ Hd).
  - intros u0 zone0 rs0 runs0 s0 d n w e Hd Hout Hs Hi Hraised.
    left. set_unfold. naive_solver.
  - intros u0 zone0 rs0 runs0 s0 d n w Hd Hout Hs Hi IH Hraised.
    destruct (IH Hraised)
      as [Hold | (rs1 & z1 & rs2 & tr0 & -> & Hev & Hatt)].
    + left. set_unfold. naive_solver.
    + right. exists ((u0, zone0) :: rs1), z1, rs2, tr0.
      split; [done |]. split; [done |].
      rewrite Hatt, claim_attempts_snoc_call, claim_attempts_snoc_claim,
        <- app_assoc. simpl.
      by rewrite (candidate_pairs_cons _ _ _ _ Hd).
Qed.

(** The downstream function is called only for a user for whom a
    claim was attempted. *)
Lemma for_loop_calls_after_claims rs runs (s : exec World) :
  (∀ v, v ∈ called_users (events s) →
        ∃ dt, (v, dt) ∈ claim_attempts (events s)) →
  ∀ v, v ∈ called_users (events (loop rs runs s).2) →
       ∃ dt, (v, dt) ∈ claim_attempts (events (loop rs runs s).2).
Proof.
  assert (∀ (tr : list event) u d won g l raised,
            (∀ v, v ∈ called_users tr → ∃ dt, (v, dt) ∈ claim_attempts tr) →
            ∀ v, v ∈ called_users
                       ((tr ++ [EClaim u d won]) ++ [ESessionize u g l raised]) →
                 ∃ dt, (v, dt) ∈ claim_attempts
                         ((tr ++ [EClaim u d won])
                          ++ [ESessionize u g l raised])) as Hstep.
  { intros tr u d won g l raised Hold v.
    rewrite called_users_snoc_call, called_users_snoc_claim,
      claim_attempts_snoc_call, claim_attempts_snoc_claim.
    intros Hv. apply elem_of_app in Hv as [Hv | Hv].
    - destruct (Hold v Hv) as [dt Hdt]. exists dt. apply elem_of_app. by left.
    - apply list_elem_of_singleton in Hv as ->. exists d.
      apply elem_of_app. right. by apply list_elem_of_singleton. }
  apply (for_loop_cases
    (λ rs runs s out,
       (∀ v, v ∈ called_users (events s) →
             ∃ dt, (v, dt) ∈ claim_attempts (events s)) →
       ∀ v, v ∈ called_users (events out.2) →
            ∃ dt, (v, dt) ∈ claim_attempts (events out.2)));
    simpl; auto.
  intros u zone rs0 runs0 s0 d Hd Hin IH Hold. apply IH. simpl.
  intros v. rewrite called_users_snoc_claim, claim_attempts_snoc_claim.
  intros Hv. destruct (Hold v Hv) as [dt Hdt]. exists dt.
  apply elem_of_app. by left.
Qed.

(** The loop over [rs1 ++ rs2] is the loop over [rs1] followed, when
    that one returns, by the loop over [rs2]. *)
Lemma for_loop_app rs1 rs2 runs (s : exec World) :
  loop (rs1 ++ rs2) runs s
  = match loop rs1 runs s with
    | (Ok n, s1) => loop rs2 n s1
    | (Raise e, s1) => (Raise e, s1)
    end.
Proof.
  apply (for_loop_cases
    (λ rs1 runs s out,
       loop (rs1 ++ rs2) runs s
       = match out with
         | (Ok n, s1) => loop rs2 n s1
         | (Raise e, s1) => (Raise e, s1)
         end)); intros; rewrite <- ?app_comm_cons.
  - done.
  - by apply for_loop_zone_error.
  - by erewrite for_loop_lost.
  - by apply for_loop_won_raise.
  - by eapply for_loop_won_overflow.
  - by erewrite for_loop_won_ok.
Qed.

End Loop.

(** ** The cursor of the loop *)

Lemma select_crossing_app pg_timezone v_now v_prev ps1 ps2 rs1 :
  select_crossing pg_timezone v_now v_prev ps1 = Ok rs1 →
  select_crossing pg_timezone v_now v_prev (ps1 ++ ps2)
  = match select_crossing pg_timezone v_now v_prev ps2 with
    | Ok rs2 => Ok (rs1 ++ rs2)
    | Raise e => Raise e
    end.
Proof.
  revert rs1. induction ps1 as [| p ps1 IH]; intros rs1; simpl.
  - intros [= <-]. by destruct (select_crossing _ _ _ ps2).
  - destruct (where_clause pg_timezone v_now v_prev p) as [row | e]; [| done].
    destruct (select_crossing pg_timezone v_now v_prev ps1) as [rs | e];
      [| done].
    intros [= <-]. rewrite (IH rs eq_refl).
    destruct (select_crossing _ _ _ ps2); [| done]. by rewrite app_assoc.
Qed.

(** The rows of the query come from the profiles in their order. *)
Lemma select_crossing_split pg_timezone v_now v_prev ps rs1 r rs2 :
  select_crossing pg_timezone v_now v_prev ps = Ok (rs1 ++ r :: rs2) →
  ∃ ps1 p ps2,
    ps = ps1 ++ p :: ps2
    ∧ select_crossing pg_timezone v_now v_prev ps1 = Ok rs1
    ∧ where_clause pg_timezone v_now v_prev p = Ok (Some r)
    ∧ select_crossing pg_timezone v_now v_prev ps2 = Ok rs2.
Proof.
  revert rs1. induction ps as [| p ps IH]; intros rs1; simpl.
  - intros [= H]. by destruct rs1.
  - destruct (where_clause pg_timezone v_now v_prev p) as [row | e] eqn:Hw;
      [| done].
    destruct (select_crossing pg_timezone v_now v_prev ps) as [rs | e] eqn:Hs;
      [| done].
    intros [= Heq]. destruct row as [r0 |]; simpl in Heq.
    + destruct rs1 as [| r1 rs1]; simpl in Heq; simplify_eq.
      * exists [], p, ps. done.
      * destruct (IH rs1 eq_refl) as (ps1 & q & ps2 & -> & Hs1 & Hq & Hs2).
        exists (p :: ps1), q, ps2. simpl. by rewrite Hw, Hs1.
    + subst rs.
      destruct (IH rs1 eq_refl) as (ps1 & q & ps2 & -> & Hs1 & Hq & Hs2).
      exists (p :: ps1), q, ps2. simpl. by rewrite Hw, Hs1.
Qed.

Lemma where_clause_Some pg_timezone v_now v_prev p u zone :
  where_clause pg_timezone v_now v_prev p = Ok (Some (u, zone)) →
  id p = u ∧ timezone p = Some zone
  ∧ crossed_midnight pg_timezone v_now v_prev zone = Ok true.
Proof.
  unfold where_clause. destruct (timezone p) as [zp |]; [| done].
  destruct (crossed_midnight pg_timezone v_now v_prev zp) as [[] | e] eqn:Hc;
    try done.
  by intros [= <- <-].
Qed.

Section Cursor.

Context {World : Type}.
Variable pg_timezone : string → option (timestamptz → Z).
Variable sessionize_recent_visits :
  uuid → Z → Z → World → result (Z * World).
Variables (gap lookback : Z) (now prev : timestamptz).

Local Abbreviation loop :=
  (for_loop pg_timezone sessionize_recent_visits gap lookback now).
Local Abbreviation query :=
  (for_query pg_timezone sessionize_recent_visits gap lookback now prev).
Local Abbreviation select := (select_crossing pg_timezone now prev).
Local Abbreviation fetch := (fetch_crossing pg_timezone now prev).

Lemma loop_then_ret rs runs (s : exec World) :
  bind (loop rs runs) (λ runs', loop [] runs') s = loop rs runs s.
Proof. unfold bind. by destruct (loop rs runs s) as [[n | e] s']. Qed.

(** The loop over the cursor is what PL/pgSQL does with it: a fetch of
    the rows asked for, the body on the rows fetched, and the same again
    with fetches of 50 rows; an error in a fetch ends the function
    there. *)
Lemma for_query_fetch ps count fetched runs (s : exec World) :
  query ps (S count) fetched runs s
  = match fetch ps (S count) with
    | Raise e => (Raise e, s)
    | Ok (rows, rest) =>
        bind (loop (fetched ++ rows) runs)
             (λ runs', query rest prefetch_next [] runs') s
    end.
Proof.
  revert count fetched. induction ps as [| p ps IH]; intros count fetched.
  - simpl. by rewrite app_nil_r, loop_then_ret.
  - simpl. unfold bind at 1, lift.
    destruct (where_clause pg_timezone now prev p) as [[r |] | e]; [| | done].
    + destruct count as [| count].
      * by destruct ps.
      * rewrite IH. destruct (fetch ps (S count)) as [[rows rest] | e]; [| done].
        by rewrite <- app_assoc.
    + apply IH.
Qed.

(** When the query can be run to its end, the loop over the cursor is
    the loop over the rows of the query. *)
Lemma for_query_rows ps rs count fetched runs (s : exec World) :
  select ps = Ok rs →
  query ps count fetched runs s = loop (fetched ++ rs) runs s.
Proof.
  revert rs count fetched runs s.
  induction ps as [| p ps IH]; intros rs count fetched runs s; simpl.
  - intros [= <-]. by rewrite app_nil_r.
  - unfold bind at 1, lift.
    destruct (where_clause pg_timezone now prev p) as [row | e]; [| done].
    destruct (select ps) as [rs' | e]; [| done].
    intros [= <-]. specialize (IH rs' ).
    destruct row as [r |]; simpl; [| by apply IH].
    assert (bind (loop (fetched ++ [r]) runs)
              (λ runs', query ps prefetch_next [] runs') s
            = loop (fetched ++ r :: rs') runs s) as Hdone.
    { rewrite (app_assoc fetched [r] rs' : fetched ++ r :: rs' = _).
      rewrite for_loop_app. unfold bind.
      destruct (loop (fetched ++ [r]) runs s) as [[n | e] s']; [| done].
      by rewrite IH. }
    destruct count as [| [| count]]; [done | done |].
    rewrite IH by done. by rewrite <- app_assoc.
Qed.

(** When the query raises somewhere, the loop over the cursor runs the
    body on the rows of the fetches that were completed before, and
    raises: with the error of the body if the body raises, with the
    error of the query otherwise. *)
Lemma for_query_error ps e count fetched runs (s : exec World) :
  select ps = Raise e →
  query ps count fetched runs s = (Raise e, s)
  ∨ ∃ ps_a ps_b rs_a,
      ps = ps_a ++ ps_b ∧ select ps_a = Ok rs_a
      ∧ query ps count fetched runs s
        = match loop (fetched ++ rs_a) runs s with
          | (Ok _, s') => (Raise e, s')
          | (Raise e', s') => (Raise e', s')
          end.
Proof.
  revert count fetched runs s.
  induction ps as [| p ps IH]; intros count fetched runs s; simpl; [done |].
  unfold bind at 1, lift.
  destruct (where_clause pg_timezone now prev p) as [row | e0] eqn:Hw.
  2: { intros [= <-]. by left. }
  destruct (select ps) as [rs' | e0] eqn:Hs; [done |].
  intros [= <-].
  assert (∀ ps_a rs_a, select ps_a = Ok rs_a →
            select (p :: ps_a) = Ok (option_list row ++ rs_a)) as Hcons.
  { intros ps_a rs_a Ha. simpl. by rewrite Hw, Ha. }
  destruct row as [r |]; simpl.
  - assert (bind (loop (fetched ++ [r]) runs)
              (λ runs', query ps prefetch_next [] runs') s = (Raise e0, s)
            ∨ ∃ ps_a ps_b rs_a,
                p :: ps = ps_a ++ ps_b ∧ select ps_a = Ok rs_a
                ∧ bind (loop (fetched ++ [r]) runs)
                    (λ runs', query ps prefetch_next [] runs') s
                  = match loop (fetched ++ rs_a) runs s with
                    | (Ok _, s') => (Raise e0, s')
                    | (Raise e', s') => (Raise e', s')
                    end) as Hdone.
    { right. unfold bind.
      destruct (loop (fetched ++ [r]) runs s) as [[n | e'] s'] eqn:Hl.
      - destruct (IH prefetch_next [] n s' eq_refl)
          as [Hq | (ps_a & ps_b & rs_a & -> & Ha & Hq)].
        + exists [p], ps, [r]. split; [done |].
          split; [by rewrite (Hcons [] [] eq_refl) |]. by rewrite Hl.
        + exists (p :: ps_a), ps_b, (r :: rs_a). split; [done |].
          split; [by rewrite (Hcons _ _ Ha) |].
          rewrite (app_assoc fetched [r] rs_a : fetched ++ r :: rs_a = _).
          by rewrite for_loop_app, Hl.
      - exists [p], ps, [r]. split; [done |].
        split; [by rewrite (Hcons [] [] eq_refl) |]. by rewrite Hl. }
    destruct count as [| [| count]]; [done | done |].
    destruct (IH (S count) (fetched ++ [r]) runs s eq_refl)
      as [Hq | (ps_a & ps_b & rs_a & -> & Ha & Hq)]; [by left |].
    right. exists (p :: ps_a), ps_b, (r :: rs_a). split; [done |].
    split; [by rewrite (Hcons _ _ Ha) |].
    unfold bind at 1. simpl. by rewrite Hq, <- app_assoc.
  - destruct (IH count fetched runs s eq_refl)
      as [Hq | (ps_a & ps_b & rs_a & -> & Ha & Hq)]; [by left |].
    right. exists (p :: ps_a), ps_b, rs_a. split; [done |].
    split; [by rewrite (Hcons _ _ Ha) |]. done.
Qed.

End Cursor.

(** ** The function and the cron statement *)

Lemma calls_lost_claims (ks : list (uuid * date)) :
  calls ((λ k, EClaim k.1 k.2 false) <$> ks) = [].
Proof. unfold calls. induction ks as [| k ks IH]; [done | by simpl]. Qed.

Lemma won_claims_lost_claims (ks : list (uuid * date)) :
  won_claims ((λ k, EClaim k.1 k.2 false) <$> ks) = [].
Proof. unfold won_claims. induction ks as [| k ks IH]; [done | by simpl]. Qed.

Section Tick.

Context {World : Type}.
Variable pg_timezone : string → option (timestamptz → Z).
Variable sessionize_recent_visits :
  uuid → Z → Z → World → result (Z * World).
Variables (gap lookback window : Z) (now : timestamptz).

Local Abbreviation loop :=
  (for_loop pg_timezone sessionize_recent_visits gap lookback now).
Local Abbreviation rows d :=
  (select_crossing pg_timezone now (now - make_interval_mins window)
     (profiles d)).
Local Abbreviation start d := {| db := d; events := [] |}.
Local Abbreviation tick :=
  (cron_job pg_timezone sessionize_recent_visits gap lookback window now).

Lemma run_sessionize_rows (s : exec World) rs :
  rows (db s) = Ok rs →
  run_sessionize_for_users_crossing_midnight pg_timezone
    sessionize_recent_visits gap lookback window now s
  = loop rs 0 s.
Proof.
  intros Hrs. unfold run_sessionize_for_users_crossing_midnight.
  by rewrite (for_query_rows _ _ _ _ _ _ _ _ _ _ _ _ Hrs).
Qed.

(** When the query raises for one of the profiles, the function has run
    the loop on the rows selected among the profiles [ps_a] that the
    completed fetches went through, and raises. *)
Lemma run_sessionize_error (s : exec World) e :
  rows (db s) = Raise e →
  ∃ ps_a ps_b rs_a,
    profiles (db s) = ps_a ++ ps_b
    ∧ select_crossing pg_timezone now (now - make_interval_mins window) ps_a
      = Ok rs_a
    ∧ run_sessionize_for_users_crossing_midnight pg_timezone
        sessionize_recent_visits gap lookback window now s
      = match loop rs_a 0 s with
        | (Ok _, s') => (Raise e, s')
        | (Raise e', s') => (Raise e', s')
        end.
Proof.
  intros Hrs. unfold run_sessionize_for_users_crossing_midnight.
  destruct (for_query_error pg_timezone sessionize_recent_visits gap lookback
              now (now - make_interval_mins window) (profiles (db s)) e
              prefetch_first [] 0 s Hrs)
    as [Hq | (ps_a & ps_b & rs_a & Hps & Ha & Hq)].
  - exists [], (profiles (db s)), []. by rewrite Hq.
  - by exists ps_a, ps_b, rs_a.
Qed.

(** What a tick did is what the loop does on the rows selected among
    the profiles the cursor went through: all of them when the tick
    returns; the tick commits when the loop returns. *)
Lemma cron_job_inv (d : database World) res d' tr :
  tick d = (res, d', tr) →
  ∃ ps_a ps_b rs_a,
    profiles d = ps_a ++ ps_b
    ∧ select_crossing pg_timezone now (now - make_interval_mins window) ps_a
      = Ok rs_a
    ∧ tr = events (loop rs_a 0 (start d)).2
    ∧ d' = (if is_ok res then db (loop rs_a 0 (start d)).2 else d)
    ∧ ((ps_b = [] ∧ res = (loop rs_a 0 (start d)).1)
       ∨ ∃ e, res = Raise e).
Proof.
  unfold cron_job. destruct (rows d) as [rs | e] eqn:Hrs.
  - rewrite (run_sessionize_rows (start d) rs Hrs).
    destruct (loop rs 0 (start d)) as [[n | e] s'] eqn:Hl;
      intros [= <- <- <-]; exists (profiles d), [], rs; rewrite Hl;
      rewrite app_nil_r;
      (split; [done |]); (split; [done |]); (split; [done |]);
      (split; [done |]); by left.
  - destruct (run_sessionize_error (start d) e Hrs)
      as (ps_a & ps_b & rs_a & Hps & Ha & ->).
    destruct (loop rs_a 0 (start d)) as [[n | e'] s'] eqn:Hl;
      intros [= <- <- <-]; exists ps_a, ps_b, rs_a; rewrite Hl;
      (split; [done |]); (split; [done |]); (split; [done |]);
      (split; [done |]); right; by eexists.
Qed.

Lemma cron_job_Ok (d : database World) n d' tr :
  tick d = (Ok n, d', tr) →
  ∃ rs, rows d = Ok rs ∧ loop rs 0 (start d) = (Ok n, {| db := d'; events := tr |}).
Proof.
  intros H.
  apply cron_job_inv in H
    as (ps_a & ps_b & rs & Hps & Hrs & -> & -> & [[-> Hn] | [e He]]);
    [| done].
  exists rs. rewrite Hps, app_nil_r. split; [done |]. simpl.
  destruct (loop rs 0 (start d)) as [res [d'' tr'']]. simpl in *. by subst res.
Qed.

Lemma cron_job_unique (d : database World) :
  NoDup (runs_keys (user_midnight_runs d)) →
  NoDup (runs_keys (user_midnight_runs (tick d).1.2)).
Proof.
  intros Hnd. destruct (tick d) as [[res d'] tr] eqn:Ht. simpl.
  apply cron_job_inv in Ht as (ps_a & ps_b & rs & _ & _ & _ & -> & _).
  destruct (is_ok res); [| done].
  by apply for_loop_unique.
Qed.

Lemma run_sessionize_unique (d : database World) :
  NoDup (runs_keys (user_midnight_runs d)) →
  NoDup (runs_keys (user_midnight_runs
    (db (run_sessionize_for_users_crossing_midnight pg_timezone
           sessionize_recent_visits gap lookback window now (start d)).2))).
Proof.
  intros Hnd. destruct (rows d) as [rs | e] eqn:Hrs.
  - rewrite (run_sessionize_rows (start d) rs Hrs). by apply for_loop_unique.
  - destruct (run_sessionize_error (start d) e Hrs)
      as (ps_a & ps_b & rs_a & _ & _ & ->).
    pose proof (for_loop_unique pg_timezone sessionize_recent_visits gap
                  lookback now rs_a 0 (start d) Hnd) as Hu.
    by destruct (loop rs_a 0 (start d)) as [[n | e'] s'].
Qed.

(** A row selected among profiles is the row of a profile with a zone
    the database knows, for which the detector is true. *)
Lemma selected_local_date ps rs u zone :
  select_crossing pg_timezone now (now - make_interval_mins window) ps
  = Ok rs →
  (u, zone) ∈ rs →
  ∃ p offset,
    p ∈ ps ∧ id p = u ∧ timezone p = Some zone
    ∧ pg_timezone zone = Some offset
    ∧ local_date_at pg_timezone now zone = Ok (civil_date offset now)
    ∧ detect offset now window.
Proof.
  intros Hrs Hin.
  apply (select_crossing_rows _ _ _ _ _ Hrs) in Hin
    as (p & Hp & Hid & Htz & Hc).
  destruct (pg_timezone zone) as [offset |] eqn:Hz.
  - exists p, offset. repeat split; try done.
    + by apply local_date_at_zone.
    + rewrite (crossed_midnight_zone _ _ _ _ _ Hz) in Hc.
      injection Hc as Hc. apply bool_decide_eq_true in Hc. exact Hc.
  - by rewrite (crossed_midnight_unknown _ _ _ _ Hz) in Hc.
Qed.

(** The rows of the query all have a zone the database knows. *)
Lemma rows_local_date (d : database World) rs u zone :
  rows d = Ok rs → (u, zone) ∈ rs →
  ∃ offset, pg_timezone zone = Some offset
            ∧ local_date_at pg_timezone now zone
              = Ok (civil_date offset now)
            ∧ detect offset now window.
Proof.
  intros Hrs Hin.
  apply (select_crossing_rows _ _ _ _ _ Hrs) in Hin
    as (p & _ & _ & _ & Hc).
  destruct (pg_timezone zone) as [offset |] eqn:Hz.
  - exists offset. split; [done |].
    split; [by apply local_date_at_zone |].
    rewrite (crossed_midnight_zone _ _ _ _ _ Hz) in Hc.
    injection Hc as Hc. apply bool_decide_eq_true in Hc. exact Hc.
  - by rewrite (crossed_midnight_unknown _ _ _ _ Hz) in Hc.
Qed.

End Tick.

(** ** The cursor at work *)

(** With an unknown zone behind ten selected profiles, the first fetch
    brings the ten rows, the body claims and calls for each of them, and
    the second fetch raises; the statement is rolled back. *)
Lemma unknown_zone_after_first_fetch :
  (cron_job Example.tzdb Example.sessionize_ok 10 24 30 Example.t_0505
     (CursorExample.unknown_after 10)).1
  = (Raise (invalid_parameter_value "Mars/Olympus"),
     CursorExample.unknown_after 10)
  ∧ claim_attempts
      (cron_job Example.tzdb Example.sessionize_ok 10 24 30 Example.t_0505
         (CursorExample.unknown_after 10)).2
    = (λ u, (u, 0)) <$> CursorExample.ten_users
  ∧ called_users
      (cron_job Example.tzdb Example.sessionize_ok 10 24 30 Example.t_0505
         (CursorExample.unknown_after 10)).2
    = CursorExample.ten_users.
Proof. split; [| split]; vm_compute; reflexivity. Qed.

(** With the unknown zone behind nine selected profiles, the first fetch
    raises before the body has run. *)
Lemma unknown_zone_within_first_fetch :
  cron_job Example.tzdb Example.sessionize_ok 10 24 30 Example.t_0505
    (CursorExample.unknown_after 9)
  = (Raise (invalid_parameter_value "Mars/Olympus"),
     CursorExample.unknown_after 9, []).
Proof. vm_compute. reflexivity. Qed.

(** When the downstream call for the first of the ten rows raises, the
    tick ends with that error; the cursor never reaches the unknown
    zone. *)
Lemma failure_before_unknown_zone :
  cron_job Example.tzdb (Example.sessionize_failing Example.alice) 10 24 30
    Example.t_0505 (CursorExample.unknown_after 10)
  = (Raise (raise_exception "sessionize failed"),
     CursorExample.unknown_after 10,
     [EClaim Example.alice 0 true; ESessionize Example.alice 10 24 true]).
Proof. vm_compute. reflexivity. Qed.

(** ** When a tick returns *)

Lemma select_crossing_length pg_timezone v_now v_prev ps rs :
  select_crossing pg_timezone v_now v_prev ps = Ok rs →
  (length rs <= length ps)%nat.
Proof.
  revert rs. induction ps as [| p ps IH]; intros rs; simpl.
  - by intros [= <-].
  - destruct (where_clause pg_timezone v_now v_prev p) as [row | e]; [| done].
    destruct (select_crossing pg_timezone v_now v_prev ps) as [rs' | e];
      [| done].
    intros [= <-]. specialize (IH rs' eq_refl). rewrite length_app.
    destruct row; simpl; lia.
Qed.

Lemma for_loop_returns {World : Type}
    (pg_timezone : string → option (timestamptz → Z))
    (sessionize_recent_visits : uuid → Z → Z → World → result (Z * World))
    (gap lookback : Z) (now : timestamptz) rs runs (s : exec World) :
  (∀ u zone, (u, zone) ∈ rs → is_Some (pg_timezone zone)) →
  (∀ u w, ∃ r, sessionize_recent_visits u gap lookback w = Ok r) →
  int4_min <= runs →
  runs + Z.of_nat (length rs) <= int4_max →
  ∃ n s', for_loop pg_timezone sessionize_recent_visits gap lookback now
            rs runs s = (Ok n, s').
Proof.
  intros Hzones Hsess. revert runs s.
  induction rs as [| [u zone] rs IH]; intros runs s Hlo Hhi.
  - by exists runs, s.
  - destruct (Hzones u zone) as [offset Hz]; [by left |].
    pose proof (local_date_at_zone pg_timezone now zone offset Hz) as Hd.
    simpl in Hhi.
    assert (∀ u zone, (u, zone) ∈ rs → is_Some (pg_timezone zone)) as Hzones'
      by (intros u' zone' Hin; apply (Hzones u'); by right).
    destruct (decide ((u, civil_date offset now)
                      ∈ runs_keys (user_midnight_runs (db s)))) as [Hin | Hout].
    + erewrite for_loop_lost by eassumption.
      apply IH; [done | done | lia].
    + destruct (Hsess u (other_tables (db s))) as [[n w] Hs].
      erewrite for_loop_won_ok; [| exact Hd | exact Hout | exact Hs | lia].
      apply IH; [done | lia | lia].
Qed.

(** A tick returns a count when the zone names of the profiles are zones
    of the database, the downstream function does not raise, and the
    profiles are few enough to be counted in an INTEGER. *)
Lemma cron_job_returns {World : Type}
    (pg_timezone : string → option (timestamptz → Z))
    (sessionize_recent_visits : uuid → Z → Z → World → result (Z * World))
    (gap lookback window : Z) (now : timestamptz) (d : database World) :
  (∀ p zone, p ∈ profiles d → timezone p = Some zone →
             is_Some (pg_timezone zone)) →
  (∀ u w, ∃ r, sessionize_recent_visits u gap lookback w = Ok r) →
  Z.of_nat (length (profiles d)) <= int4_max →
  ∃ n d' tr,
    cron_job pg_timezone sessionize_recent_visits gap lookback window now d
    = (Ok n, d', tr).
Proof.
  intros Hzones Hsess Hlen.
  destruct (select_crossing_total pg_timezone now
              (now - make_interval_mins window) (profiles d) Hzones)
    as [rs Hrs].
  pose proof (select_crossing_length _ _ _ _ _ Hrs) as Hle.
  destruct (for_loop_returns pg_timezone sessionize_recent_visits gap lookback
              now rs 0 {| db := d; events := [] |}) as (n & s' & Hl).
  - intros u zone Hin.
    apply (select_crossing_rows _ _ _ _ _ Hrs) in Hin as (p & Hp & _ & Htz & _).
    by eapply Hzones.
  - done.
  - unfold int4_min. lia.
  - lia.
  - exists n, (db s'), (events s'). unfold cron_job.
    rewrite (run_sessionize_rows _ _ _ _ _ _ {| db := d; events := [] |} rs Hrs).
    by rewrite Hl.
Qed.

(** ** Claims made one after the other *)

Lemma claim_in_turn_lost callers u d t :
  (u, d) ∈ runs_keys t →
  claim_in_turn callers u d t = replicate (length callers) false.
Proof.
  revert t. induction callers as [| now rest IH]; intros t Hin; [done |].
  simpl. rewrite claim_present by done. simpl. by rewrite IH.
Qed.

(** Of the claims for a pair the ledger does not hold, the first is won
    and every later one is lost. *)
Lemma claim_in_turn_one_winner now rest u d t :
  (u, d) ∉ runs_keys t →
  claim_in_turn (now :: rest) u d t = true :: replicate (length rest) false.
Proof.
  intros Hout. simpl. rewrite claim_absent by done. simpl. f_equal.
  apply claim_in_turn_lost, elem_of_runs_keys_snoc. by right.
Qed.

(** ** The claims of the design *)

(** C3.  A claim returns true exactly when the pair was not in the
    ledger, and then the ledger holds one more row, with the pair; when
    the pair was there it returns false and the ledger is as before.
    A second claim for a pair is never won, whatever the first one did:
    from a ledger without the pair, two claims in a row give true, then
    false. *)
Theorem claim_true_iff_absent (now now' : timestamptz) (u : uuid) (d : date)
    (t : list midnight_run) :
  ((claim now u d t).1 = true ↔ (u, d) ∉ runs_keys t)
  ∧ ((u, d) ∉ runs_keys t →
     claim now u d t
     = (true, t ++ [{| user_id := u; local_date := d; ran_at := now |}]))
  ∧ ((u, d) ∈ runs_keys t → claim now u d t = (false, t))
  ∧ claim now' u d (claim now u d t).2 = (false, (claim now u d t).2)
  ∧ ((u, d) ∉ runs_keys t →
     (claim now u d t).1 = true
     ∧ (claim now' u d (claim now u d t).2).1 = false).
Proof.
  assert (claim now' u d (claim now u d t).2 = (false, (claim now u d t).2))
    as Hsecond by apply claim_present, claim_keys.
  repeat split.
  - intros Hwon Hin. by rewrite claim_present in Hwon.
  - intros Hout. by rewrite claim_absent.
  - apply claim_absent.
  - apply claim_present.
  - exact Hsecond.
  - by rewrite claim_absent.
  - by rewrite Hsecond.
Qed.

Lemma claim_true_iff_absent_witness :
  (claim 7 Example.alice 0 []).1 = true
  ∧ (claim 8 Example.alice 0 (claim 7 Example.alice 0 []).2).1 = false.
Proof.
  apply (claim_true_iff_absent 7 8 Example.alice 0 []).
  unfold runs_keys. simpl. apply not_elem_of_nil.
Defined.

(** C4.  In every ledger state that can arise, no two rows have the
    same (user_id, local_date).  The index is what keeps it so: it
    rejects a plain INSERT of a key the table holds. *)
Theorem ledger_key_unique {World : Type}
    (pg_timezone : string → option (timestamptz → Z))
    (sessionize_recent_visits : uuid → Z → Z → World → result (Z * World))
    (t : list midnight_run) :
  reachable pg_timezone sessionize_recent_visits t →
  NoDup (runs_keys t)
  ∧ ∀ r, pkey r ∈ runs_keys t → insert_row r t = Raise unique_violation.
Proof.
  intros Hr. split; [| intros r; apply insert_row_present].
  induction Hr as [| r t t' _ IH Hins | now u d t _ IH | g l w now d _ IH
                   | g l w now d _ IH | cutoff t _ IH].
  - unfold runs_keys. simpl. apply NoDup_nil_2.
  - by eapply insert_row_unique.
  - by apply claim_unique.
  - by apply cron_job_unique.
  - by apply run_sessionize_unique.
  - by apply delete_runs_before_unique.
Qed.

Lemma ledger_key_unique_witness :
  NoDup (runs_keys
           (user_midnight_runs
              (cron_job Example.tzdb Example.sessionize_ok 10 24 30
                 Example.t_0505
                 (Example.empty_db
                    [Example.bogota Example.alice;
                     Example.bogota Example.bob])).1.2)).
Proof.
  apply (ledger_key_unique Example.tzdb Example.sessionize_ok).
  apply reachable_tick. simpl. apply reachable_created.
Defined.

(** C5.  The detector is the comparison of two civil dates: for a zone
    the database knows, it returns true exactly when the civil date at
    [now] differs from the civil date at [now - window], each taken with
    the offset in effect at its own instant; and the rows a tick loops
    over are the profiles with a zone for which this holds. *)
Theorem detector_compares_local_dates
    (pg_timezone : string → option (timestamptz → Z))
    (now : timestamptz) (window_minutes : Z) :
  (∀ zone offset,
     pg_timezone zone = Some offset →
     local_date_at pg_timezone now zone = Ok (civil_date offset now)
     ∧ local_date_at pg_timezone (now - make_interval_mins window_minutes) zone
       = Ok (civil_date offset (now - window_minutes * usecs_per_minute))
     ∧ ∃ b, crossed_midnight pg_timezone now
              (now - make_interval_mins window_minutes) zone = Ok b
            ∧ (b = true ↔ detect offset now window_minutes))
  ∧ (∀ ps rs,
       select_crossing pg_timezone now
         (now - make_interval_mins window_minutes) ps = Ok rs →
       ∀ u zone,
         (u, zone) ∈ rs ↔
         ∃ p offset, p ∈ ps ∧ id p = u ∧ timezone p = Some zone
                     ∧ pg_timezone zone = Some offset
                     ∧ detect offset now window_minutes).
Proof.
  split.
  - intros zone offset Hz.
    split; [by apply local_date_at_zone |].
    split; [by apply local_date_at_zone |].
    rewrite (crossed_midnight_zone _ _ _ _ _ Hz). eexists. split; [done |].
    unfold detect, make_interval_mins. apply bool_decide_eq_true.
  - intros ps rs Hrs u zone.
    rewrite (select_crossing_rows _ _ _ _ _ Hrs). split.
    + intros (p & Hp & Hid & Htz & Hc).
      destruct (pg_timezone zone) as [offset |] eqn:Hz.
      * exists p, offset. repeat split; try done.
        rewrite (crossed_midnight_zone _ _ _ _ _ Hz) in Hc.
        injection Hc as Hc. by apply bool_decide_eq_true in Hc.
      * by rewrite (crossed_midnight_unknown _ _ _ _ Hz) in Hc.
    + intros (p & offset & Hp & Hid & Htz & Hz & Hdet).
      exists p. repeat split; try done.
      rewrite (crossed_midnight_zone _ _ _ _ _ Hz). f_equal.
      by apply bool_decide_eq_true.
Qed.

Lemma detector_compares_local_dates_witness :
  (Example.alice, "America/Bogota") ∈ [(Example.alice, "America/Bogota")] ↔
  ∃ p offset,
    p ∈ [Example.bogota Example.alice;
         {| id := Example.bob; timezone := None |};
         {| id := Example.carol; timezone := Some "UTC" |}]
    ∧ id p = Example.alice ∧ timezone p = Some "America/Bogota"
    ∧ Example.tzdb "America/Bogota" = Some offset
    ∧ detect offset Example.t_0505 30.
Proof.
  apply (detector_compares_local_dates Example.tzdb Example.t_0505 30).
  reflexivity.
Defined.

(** C7.  The integer a tick returns is the number of downstream calls
    made in the tick, which is the number of claims that were won and
    the number of rows the tick added to the ledger. *)
Theorem tick_returns_number_of_calls {World : Type}
    (pg_timezone : string → option (timestamptz → Z))
    (sessionize_recent_visits : uuid → Z → Z → World → result (Z * World))
    (gap lookback window : Z) (now : timestamptz)
    (d d' : database World) (n : Z) (tr : list event) :
  cron_job pg_timezone sessionize_recent_visits gap lookback window now d
  = (Ok n, d', tr) →
  n = Z.of_nat (length (calls tr))
  ∧ n = Z.of_nat (length (called_users tr))
  ∧ n = Z.of_nat (length (won_claims tr))
  ∧ Z.of_nat (length (user_midnight_runs d'))
    = Z.of_nat (length (user_midnight_runs d)) + n.
Proof.
  intros Ht. apply cron_job_Ok in Ht as (rs & _ & Hl).
  pose proof (for_loop_counts pg_timezone sessionize_recent_visits gap
                lookback now rs 0 {| db := d; events := [] |} n) as H.
  rewrite Hl in H. simpl in H. destruct (H eq_refl) as (Hc & Hw & Hr).
  rewrite called_users_length. lia.
Qed.

Lemma tick_returns_number_of_calls_witness :
  (Example.tick_0505
     [Example.bogota Example.alice; Example.utc Example.carol;
      Example.bogota Example.bob]).1.1 = Ok 2
  ∧ 2 = Z.of_nat (length (calls
          (Example.tick_0505
             [Example.bogota Example.alice; Example.utc Example.carol;
              Example.bogota Example.bob]).2))
  ∧ 2 = Z.of_nat (length (called_users
          (Example.tick_0505
             [Example.bogota Example.alice; Example.utc Example.carol;
              Example.bogota Example.bob]).2))
  ∧ 2 = Z.of_nat (length (won_claims
          (Example.tick_0505
             [Example.bogota Example.alice; Example.utc Example.carol;
              Example.bogota Example.bob]).2))
  ∧ Z.of_nat (length (user_midnight_runs
        (Example.tick_0505
           [Example.bogota Example.alice; Example.utc Example.carol;
            Example.bogota Example.bob]).1.2))
    = Z.of_nat (length (user_midnight_runs
        (Example.empty_db
           [Example.bogota Example.alice; Example.utc Example.carol;
            Example.bogota Example.bob]))) + 2.
Proof.
  split; [reflexivity |].
  apply (tick_returns_number_of_calls Example.tzdb Example.sessionize_ok
           10 24 30 Example.t_0505).
  reflexivity.
Defined.

(** C8.  With a window of 30 minutes, an entity in a zone that is at
    UTC-5 all year, whose local midnight is 05:00 UTC, is detected by
    the tick at 05:05 UTC: the dates compared there, at 05:05 and at
    04:35 UTC, are the new day and the day before.  The tick at 04:50
    UTC, which compares 04:50 and 04:20 UTC, does not detect it.  So of
    the two ticks around the crossing it is the later one that selects
    the entity. *)
Theorem utc_minus_5_midnight_detected
    (pg_timezone : string → option (timestamptz → Z))
    (zone : string) (offset : timestamptz → Z) (day : Z) :
  pg_timezone zone = Some offset →
  (∀ t, offset t = -5 * 3600000000) →
  let utc_0000 := day * usecs_per_day in
  let utc_0450 := utc_0000 + 4 * 3600000000 + 50 * usecs_per_minute in
  let utc_0505 := utc_0000 + 5 * 3600000000 + 5 * usecs_per_minute in
  let utc_0435 := utc_0000 + 4 * 3600000000 + 35 * usecs_per_minute in
  utc_0505 - make_interval_mins 30 = utc_0435
  ∧ local_date_at pg_timezone utc_0505 zone = Ok day
  ∧ local_date_at pg_timezone utc_0435 zone = Ok (day - 1)
  ∧ crossed_midnight pg_timezone utc_0505
      (utc_0505 - make_interval_mins 30) zone = Ok true
  ∧ crossed_midnight pg_timezone utc_0450
      (utc_0450 - make_interval_mins 30) zone = Ok false
  ∧ ∀ ps rs p,
      p ∈ ps → timezone p = Some zone →
      select_crossing pg_timezone utc_0505
        (utc_0505 - make_interval_mins 30) ps = Ok rs →
      (id p, zone) ∈ rs.
Proof.
  intros Hz Hoff utc_0000 utc_0450 utc_0505 utc_0435.
  assert (∀ t, civil_date offset t = (t - 5 * 3600000000) `div` usecs_per_day)
    as Hcivil.
  { intros t. unfold civil_date. rewrite Hoff. done. }
  assert (civil_date offset utc_0505 = day) as H0505.
  { rewrite Hcivil. subst utc_0505 utc_0000. unfold usecs_per_day,
      usecs_per_minute. symmetry. apply (Z.div_unique_pos _ _ _ 300000000); lia. }
  assert (civil_date offset utc_0435 = day - 1) as H0435.
  { rewrite Hcivil. subst utc_0435 utc_0000. unfold usecs_per_day,
      usecs_per_minute. symmetry.
    apply (Z.div_unique_pos _ _ _ 84900000000); lia. }
  assert (civil_date offset utc_0450 = day - 1) as H0450.
  { rewrite Hcivil. subst utc_0450 utc_0000. unfold usecs_per_day,
      usecs_per_minute. symmetry.
    apply (Z.div_unique_pos _ _ _ 85800000000); lia. }
  assert (civil_date offset (utc_0450 - make_interval_mins 30) = day - 1)
    as H0420.
  { rewrite Hcivil. subst utc_0450 utc_0000. unfold usecs_per_day,
      usecs_per_minute, make_interval_mins. symmetry.
    apply (Z.div_unique_pos _ _ _ 84000000000); unfold usecs_per_minute; lia. }
  assert (utc_0505 - make_interval_mins 30 = utc_0435) as Hprev.
  { subst utc_0505 utc_0435. unfold make_interval_mins, usecs_per_minute. lia. }
  assert (crossed_midnight pg_timezone utc_0505
            (utc_0505 - make_interval_mins 30) zone = Ok true) as Hcross.
  { rewrite (crossed_midnight_zone _ _ _ _ _ Hz), Hprev, H0505, H0435.
    f_equal. apply bool_decide_eq_true. lia. }
  split; [exact Hprev |].
  split; [by rewrite (local_date_at_zone _ _ _ _ Hz), H0505 |].
  split; [by rewrite (local_date_at_zone _ _ _ _ Hz), H0435 |].
  split; [exact Hcross |].
  split.
  - rewrite (crossed_midnight_zone _ _ _ _ _ Hz), H0450, H0420.
    f_equal. apply bool_decide_eq_false. lia.
  - intros ps rs p Hp Htz Hrs.
    apply (select_crossing_rows _ _ _ _ _ Hrs). by exists p.
Qed.

Lemma utc_minus_5_midnight_detected_witness :
  crossed_midnight Example.tzdb
    (19000 * usecs_per_day + 5 * 3600000000 + 5 * usecs_per_minute)
    (19000 * usecs_per_day + 5 * 3600000000 + 5 * usecs_per_minute
     - make_interval_mins 30) "America/Bogota" = Ok true.
Proof.
  apply (utc_minus_5_midnight_detected Example.tzdb "America/Bogota"
           (λ _, -5 * Example.hour) 19000).
  - reflexivity.
  - intros t. reflexivity.
Defined.

(** C10.  Every claim a tick attempts, and every row it adds to the
    ledger, is for the civil date at [now] of a profile the detector
    selected, never for the date at [now - window], which is a
    different date.  This holds whichever of the two dates is the
    earlier one. *)
Theorem claimed_date_is_date_at_now {World : Type}
    (pg_timezone : string → option (timestamptz → Z))
    (sessionize_recent_visits : uuid → Z → Z → World → result (Z * World))
    (gap lookback window : Z) (now : timestamptz)
    (d d' : database World) (res : result Z) (tr : list event) :
  cron_job pg_timezone sessionize_recent_visits gap lookback window now d
  = (res, d', tr) →
  (∀ u dt,
     (u, dt) ∈ claim_attempts tr →
     ∃ p zone offset,
       p ∈ profiles d ∧ id p = u ∧ timezone p = Some zone
       ∧ pg_timezone zone = Some offset
       ∧ detect offset now window
       ∧ dt = civil_date offset now
       ∧ dt ≠ civil_date offset (now - window * usecs_per_minute))
  ∧ (∀ r,
       r ∈ user_midnight_runs d' →
       r ∈ user_midnight_runs d
       ∨ ∃ p zone offset,
           p ∈ profiles d ∧ id p = user_id r ∧ timezone p = Some zone
           ∧ pg_timezone zone = Some offset
           ∧ detect offset now window
           ∧ local_date r = civil_date offset now
           ∧ ran_at r = now).
Proof.
  intros Ht.
  apply cron_job_inv in Ht
    as (ps_a & ps_b & rs & Hps & Hrs & -> & -> & _).
  assert (∀ u zone dt,
            (u, zone) ∈ rs →
            local_date_at pg_timezone now zone = Ok dt →
            ∃ p offset,
              p ∈ profiles d ∧ id p = u ∧ timezone p = Some zone
              ∧ pg_timezone zone = Some offset
              ∧ detect offset now window
              ∧ dt = civil_date offset now) as Hrow.
  { intros u zone dt Hin Hd.
    destruct (selected_local_date _ _ _ _ _ _ _ Hrs Hin)
      as (p & offset & Hp & Hid & Htz & Hz & Hd' & Hdet).
    exists p, offset. repeat split; try done; [| congruence].
    rewrite Hps. apply elem_of_app. by left. }
  split.
  - intros u dt Hin.
    apply for_loop_attempts in Hin as [Hin | (zone & Hin & Hd)];
      [by apply elem_of_nil in Hin |].
    destruct (Hrow _ _ _ Hin Hd)
      as (p & offset & Hp & Hid & Htz & Hz & Hdet & ->).
    exists p, zone, offset. repeat split; try done.
  - intros r Hr. destruct (is_ok res); [| by left].
    apply for_loop_rows in Hr as [Hr | (zone & Hin & Hd & Hran)]; [by left |].
    right.
    destruct (Hrow _ _ _ Hin Hd)
      as (p & offset & Hp & Hid & Htz & Hz & Hdet & Heq).
    exists p, zone, offset. repeat split; try done.
Qed.

(** In the zone of the example the date line change puts the civil date
    at 00:05 UTC (day -1) before the civil date at 23:35 UTC of the
    evening before (day 0). *)
Lemma date_line_goes_back :
  local_date_at Example.tzdb Example.t_0005 "Example/Date_Line" = Ok (-1)
  ∧ local_date_at Example.tzdb (Example.t_0005 - make_interval_mins 30)
      "Example/Date_Line" = Ok 0.
Proof. split; reflexivity. Qed.

Lemma claimed_date_is_date_at_now_witness :
  (∃ p zone offset,
     p ∈ profiles (Example.empty_db [Example.date_line Example.alice])
     ∧ id p = Example.alice ∧ timezone p = Some zone
     ∧ Example.tzdb zone = Some offset
     ∧ detect offset Example.t_0005 30
     ∧ -1 = civil_date offset Example.t_0005
     ∧ -1 ≠ civil_date offset (Example.t_0005 - 30 * usecs_per_minute))
  ∧ (∃ p zone offset,
       p ∈ profiles (CursorExample.unknown_after 10)
       ∧ id p = 10%N ∧ timezone p = Some zone
       ∧ Example.tzdb zone = Some offset
       ∧ detect offset Example.t_0505 30
       ∧ 0 = civil_date offset Example.t_0505
       ∧ 0 ≠ civil_date offset (Example.t_0505 - 30 * usecs_per_minute)).
Proof.
  split.
  - apply (claimed_date_is_date_at_now Example.tzdb Example.sessionize_ok
             10 24 30 Example.t_0005
             (Example.empty_db [Example.date_line Example.alice])
             (cron_job Example.tzdb Example.sessionize_ok 10 24 30
                Example.t_0005
                (Example.empty_db [Example.date_line Example.alice])).1.2
             (cron_job Example.tzdb Example.sessionize_ok 10 24 30
                Example.t_0005
                (Example.empty_db [Example.date_line Example.alice])).1.1
             (cron_job Example.tzdb Example.sessionize_ok 10 24 30
                Example.t_0005
                (Example.empty_db [Example.date_line Example.alice])).2).
    + reflexivity.
    + vm_compute. apply list_elem_of_here.
  - apply (claimed_date_is_date_at_now Example.tzdb Example.sessionize_ok
             10 24 30 Example.t_0505
             (CursorExample.unknown_after 10)
             (cron_job Example.tzdb Example.sessionize_ok 10 24 30
                Example.t_0505 (CursorExample.unknown_after 10)).1.2
             (cron_job Example.tzdb Example.sessionize_ok 10 24 30
                Example.t_0505 (CursorExample.unknown_after 10)).1.1
             (cron_job Example.tzdb Example.sessionize_ok 10 24 30
                Example.t_0505 (CursorExample.unknown_after 10)).2).
    + vm_compute. reflexivity.
    + vm_compute. do 9 apply list_elem_of_further. apply list_elem_of_here.
Defined.

(** C6.  A tick that returned [n] did so for the [n] genuinely new
    candidates, those whose pair the ledger did not hold.  Run again
    with the same [now] on the database the first run left, the tick
    finds no genuinely new candidate: it returns 0, calls the downstream
    function for nobody, wins no claim and leaves the database as it
    is. *)
Theorem replayed_tick_calls_nobody {World : Type}
    (pg_timezone : string → option (timestamptz → Z))
    (sessionize_recent_visits : uuid → Z → Z → World → result (Z * World))
    (gap lookback window : Z) (now : timestamptz)
    (d d1 : database World) (n : Z) (tr1 : list event) :
  cron_job pg_timezone sessionize_recent_visits gap lookback window now d
  = (Ok n, d1, tr1) →
  ∃ rs tr2,
    select_crossing pg_timezone now (now - make_interval_mins window)
      (profiles d) = Ok rs
    ∧ select_crossing pg_timezone now (now - make_interval_mins window)
        (profiles d1) = Ok rs
    ∧ n = Z.of_nat (size (genuinely_new (candidate_pairs pg_timezone now rs)
                                        (user_midnight_runs d)))
    ∧ genuinely_new (candidate_pairs pg_timezone now rs)
        (user_midnight_runs d1) = ∅
    ∧ cron_job pg_timezone sessionize_recent_visits gap lookback window now d1
      = (Ok 0, d1, tr2)
    ∧ calls tr2 = [] ∧ called_users tr2 = [] ∧ won_claims tr2 = [].
Proof.
  intros Ht. apply cron_job_Ok in Ht as (rs & Hrs & Hl).
  pose proof (for_loop_profiles pg_timezone sessionize_recent_visits gap
                lookback now rs 0 {| db := d; events := [] |}) as Hps.
  pose proof (for_loop_new_count pg_timezone sessionize_recent_visits gap
                lookback now rs 0 {| db := d; events := [] |} n) as Hn.
  pose proof (λ u zone, for_loop_claimed_after pg_timezone
                sessionize_recent_visits gap lookback now rs 0
                {| db := d; events := [] |} n u zone) as Hin.
  rewrite Hl in Hps, Hn, Hin. simpl in Hps, Hn, Hin.
  specialize (Hn eq_refl).
  assert (∀ u zone, (u, zone) ∈ rs →
            ∃ dt, local_date_at pg_timezone now zone = Ok dt
                  ∧ (u, dt) ∈ runs_keys (user_midnight_runs d1)) as Hall
    by (intros u zone; by apply Hin).
  assert (select_crossing pg_timezone now (now - make_interval_mins window)
            (profiles d1) = Ok rs) as Hrs1 by (by rewrite Hps).
  exists rs, ((λ k, EClaim k.1 k.2 false) <$> candidate_pairs pg_timezone now rs).
  split; [done |]. split; [done |]. split; [lia |]. split.
  { apply genuinely_new_empty. intros [u dt] Hk.
    apply elem_of_candidate_pairs in Hk as (zone & Hk & Hd).
    destruct (Hall u zone Hk) as (dt' & Hd' & Hin'). congruence. }
  split.
  - unfold cron_job.
    rewrite (run_sessionize_rows _ _ _ _ _ _ {| db := d1; events := [] |} rs Hrs1).
    by rewrite for_loop_all_claimed.
  - split; [apply calls_lost_claims |]. split; [| apply won_claims_lost_claims].
    apply length_zero_iff_nil.
    by rewrite called_users_length, calls_lost_claims.
Qed.

Lemma replayed_tick_calls_nobody_witness :
  (Example.tick_0505
     [Example.bogota Example.alice; Example.bogota Example.bob]).1.1 = Ok 2
  ∧ ∃ tr2,
      cron_job Example.tzdb Example.sessionize_ok 10 24 30 Example.t_0505
        (Example.tick_0505
           [Example.bogota Example.alice; Example.bogota Example.bob]).1.2
      = (Ok 0,
         (Example.tick_0505
            [Example.bogota Example.alice; Example.bogota Example.bob]).1.2,
         tr2)
      ∧ called_users tr2 = [].
Proof.
  split; [reflexivity |].
  destruct (replayed_tick_calls_nobody Example.tzdb Example.sessionize_ok
              10 24 30 Example.t_0505
              (Example.empty_db
                 [Example.bogota Example.alice; Example.bogota Example.bob])
              (Example.tick_0505
                 [Example.bogota Example.alice; Example.bogota Example.bob]).1.2
              2
              (Example.tick_0505
                 [Example.bogota Example.alice; Example.bogota Example.bob]).2
              eq_refl)
    as (rs & tr2 & _ & _ & _ & _ & Htick & _ & Hcalled & _).
  exists tr2. split; [exact Htick | exact Hcalled].
Defined.

(** C1, as the code has it.  When the downstream call for an entity
    raises after the entity's claim was won, the error leaves the
    function and the cron statement is rolled back: the tick returns no
    count, the database after the tick is the database before it, and
    the ledger does not hold the pair that was claimed. *)
Theorem failed_call_rolls_back_claim {World : Type}
    (pg_timezone : string → option (timestamptz → Z))
    (sessionize_recent_visits : uuid → Z → Z → World → result (Z * World))
    (gap lookback window : Z) (now : timestamptz)
    (d d' : database World) (res : result Z) (tr : list event)
    (u : uuid) (dt : date) (g l : Z) :
  cron_job pg_timezone sessionize_recent_visits gap lookback window now d
  = (res, d', tr) →
  EClaim u dt true ∈ tr →
  ESessionize u g l true ∈ tr →
  (∃ e, res = Raise e)
  ∧ d' = d
  ∧ (u, dt) ∉ runs_keys (user_midnight_runs d').
Proof.
  intros Ht Hwon Hraised.
  apply cron_job_inv in Ht
    as (ps_a & ps_b & rs & _ & _ & -> & -> & Hres).
  destruct res as [n | e].
  - destruct Hres as [[_ Hres] | [e He]]; [| done]. symmetry in Hres.
    apply (for_loop_Ok_no_raise _ _ _ _ _ _ _ _ _ _ _ _ Hres) in Hraised.
    by apply elem_of_nil in Hraised.
  - split; [by exists e |]. split; [done |]. simpl.
    apply for_loop_won_fresh in Hwon as [Hwon | Hfresh];
      [by apply elem_of_nil in Hwon | done].
Qed.

Lemma failed_call_rolls_back_claim_witness :
  (∃ e, (cron_job Example.tzdb (Example.sessionize_failing Example.alice)
           10 24 30 Example.t_0505 (CursorExample.unknown_after 10)).1.1
        = Raise e)
  ∧ (cron_job Example.tzdb (Example.sessionize_failing Example.alice)
       10 24 30 Example.t_0505 (CursorExample.unknown_after 10)).1.2
    = CursorExample.unknown_after 10
  ∧ (Example.alice, 0)
    ∉ runs_keys (user_midnight_runs
                   (cron_job Example.tzdb
                      (Example.sessionize_failing Example.alice)
                      10 24 30 Example.t_0505
                      (CursorExample.unknown_after 10)).1.2).
Proof.
  apply (failed_call_rolls_back_claim Example.tzdb
           (Example.sessionize_failing Example.alice) 10 24 30 Example.t_0505
           (CursorExample.unknown_after 10)
           _ _
           (cron_job Example.tzdb (Example.sessionize_failing Example.alice)
              10 24 30 Example.t_0505 (CursorExample.unknown_after 10)).2
           Example.alice 0 10 24).
  - vm_compute. reflexivity.
  - vm_compute. apply list_elem_of_here.
  - vm_compute. apply list_elem_of_further, list_elem_of_here.
Defined.

(** C1 as stated fails: alice's claim is won, her downstream call
    raises, and after the tick the ledger does not hold her pair. *)
Lemma claim_kept_after_failure_counterexample :
  EClaim Example.alice 0 true
    ∈ (Example.failing_tick_0505 [Example.bogota Example.alice]).2
  ∧ ESessionize Example.alice 10 24 true
      ∈ (Example.failing_tick_0505 [Example.bogota Example.alice]).2
  ∧ ¬ (Example.alice, 0)
      ∈ runs_keys (user_midnight_runs
                     (Example.failing_tick_0505
                        [Example.bogota Example.alice]).1.2).
Proof.
  split; [| split].
  - vm_compute. apply list_elem_of_here.
  - vm_compute. apply list_elem_of_further, list_elem_of_here.
  - vm_compute. apply not_elem_of_nil.
Qed.

(** C2, as the code has it.  A downstream call that raises ends the
    tick: the error is what the tick returns instead of a count, the
    statement is rolled back, and the failed call is the last thing the
    tick did.  The profiles split at the one the call was made for: the
    claims attempted are exactly those of the rows selected before it
    and its own, the downstream function was called only for users
    among these, and for the profiles after it nothing is claimed or
    called. *)
Theorem downstream_failure_aborts_tick {World : Type}
    (pg_timezone : string → option (timestamptz → Z))
    (sessionize_recent_visits : uuid → Z → Z → World → result (Z * World))
    (gap lookback window : Z) (now : timestamptz)
    (d d' : database World) (res : result Z) (tr : list event)
    (u : uuid) (g l : Z) :
  cron_job pg_timezone sessionize_recent_visits gap lookback window now d
  = (res, d', tr) →
  ESessionize u g l true ∈ tr →
  (∃ e, res = Raise e)
  ∧ d' = d
  ∧ ∃ ps1 p ps2 zone rs1 tr0,
      profiles d = ps1 ++ p :: ps2
      ∧ id p = u ∧ timezone p = Some zone
      ∧ crossed_midnight pg_timezone now (now - make_interval_mins window)
          zone = Ok true
      ∧ select_crossing pg_timezone now (now - make_interval_mins window) ps1
        = Ok rs1
      ∧ tr = tr0 ++ [ESessionize u g l true]
      ∧ claim_attempts tr
        = candidate_pairs pg_timezone now (rs1 ++ [(u, zone)])
      ∧ ∀ v, v ∈ called_users tr →
             ∃ dt, (v, dt)
                   ∈ candidate_pairs pg_timezone now (rs1 ++ [(u, zone)]).
Proof.
  intros Ht Hraised.
  apply cron_job_inv in Ht
    as (ps_a & ps_b & rs & Hps & Hrs & -> & -> & Hres).
  destruct res as [n | e].
  { destruct Hres as [[_ Hres] | [e He]]; [| done]. symmetry in Hres.
    apply (for_loop_Ok_no_raise _ _ _ _ _ _ _ _ _ _ _ _ Hres) in Hraised.
    by apply elem_of_nil in Hraised. }
  split; [by exists e |]. split; [done |].
  pose proof (for_loop_calls_after_claims pg_timezone sessionize_recent_visits
                gap lookback now rs 0 {| db := d; events := [] |}) as Hcalls.
  apply for_loop_raised_call in Hraised
    as [Hold | (rs1 & zone & rs2 & tr0 & -> & Hev & Hatt)];
    [by apply elem_of_nil in Hold |].
  apply select_crossing_split in Hrs
    as (ps1 & p & ps2 & -> & Hrs1 & Hp & _).
  apply where_clause_Some in Hp as (Hid & Htz & Hc).
  exists ps1, p, (ps2 ++ ps_b), zone, rs1, tr0.
  split; [by rewrite Hps, <- app_assoc |].
  do 5 (split; [done |]). simpl in Hatt. split; [done |].
  rewrite <- Hatt. apply Hcalls. simpl.
  intros v Hv. by apply elem_of_nil in Hv.
Qed.

Lemma downstream_failure_aborts_tick_witness :
  (∃ e, (Example.failing_tick_0505
           [Example.bogota Example.bob; Example.bogota Example.alice;
            Example.bogota Example.carol]).1.1 = Raise e)
  ∧ (Example.failing_tick_0505
       [Example.bogota Example.bob; Example.bogota Example.alice;
        Example.bogota Example.carol]).1.2
    = Example.empty_db
        [Example.bogota Example.bob; Example.bogota Example.alice;
         Example.bogota Example.carol]
  ∧ ∃ ps1 p ps2 zone rs1 tr0,
      profiles (Example.empty_db
         [Example.bogota Example.bob; Example.bogota Example.alice;
          Example.bogota Example.carol])
      = ps1 ++ p :: ps2
      ∧ id p = Example.alice ∧ timezone p = Some zone
      ∧ crossed_midnight Example.tzdb Example.t_0505
          (Example.t_0505 - make_interval_mins 30) zone = Ok true
      ∧ select_crossing Example.tzdb Example.t_0505
          (Example.t_0505 - make_interval_mins 30) ps1 = Ok rs1
      ∧ (Example.failing_tick_0505
           [Example.bogota Example.bob; Example.bogota Example.alice;
            Example.bogota Example.carol]).2
        = tr0 ++ [ESessionize Example.alice 10 24 true]
      ∧ claim_attempts
          (Example.failing_tick_0505
             [Example.bogota Example.bob; Example.bogota Example.alice;
              Example.bogota Example.carol]).2
        = candidate_pairs Example.tzdb Example.t_0505
            (rs1 ++ [(Example.alice, zone)])
      ∧ ∀ v, v ∈ called_users
                   (Example.failing_tick_0505
                      [Example.bogota Example.bob;
                       Example.bogota Example.alice;
                       Example.bogota Example.carol]).2 →
             ∃ dt, (v, dt)
                   ∈ candidate_pairs Example.tzdb Example.t_0505
                       (rs1 ++ [(Example.alice, zone)]).
Proof.
  apply (downstream_failure_aborts_tick Example.tzdb
           (Example.sessionize_failing Example.alice) 10 24 30 Example.t_0505).
  - reflexivity.
  - vm_compute. do 3 apply list_elem_of_further. apply list_elem_of_here.
Defined.

(** C2 as stated fails: bob is selected by the detector and comes after
    alice, whose downstream call raises; no claim is attempted for bob,
    the downstream function is not called for him, and the tick returns
    no count. *)
Lemma failure_isolated_counterexample :
  select_crossing Example.tzdb Example.t_0505
    (Example.t_0505 - make_interval_mins 30)
    [Example.bogota Example.alice; Example.bogota Example.bob]
  = Ok [(Example.alice, "America/Bogota"); (Example.bob, "America/Bogota")]
  ∧ Example.sessionize_failing Example.alice Example.bob 10 24 []
    = Ok (1, [Example.bob])
  ∧ ¬ (Example.bob, 0)
      ∈ claim_attempts
          (Example.failing_tick_0505
             [Example.bogota Example.alice; Example.bogota Example.bob]).2
  ∧ ¬ Example.bob
      ∈ called_users
          (Example.failing_tick_0505
             [Example.bogota Example.alice; Example.bogota Example.bob]).2
  ∧ ¬ ∃ n, (Example.failing_tick_0505
              [Example.bogota Example.alice; Example.bogota Example.bob]).1.1
           = Ok n.
Proof.
  split; [reflexivity |]. split; [reflexivity |]. split; [| split].
  - vm_compute. intros H. apply list_elem_of_singleton in H. discriminate H.
  - vm_compute. intros H. apply list_elem_of_singleton in H. discriminate H.
  - intros [n H]. vm_compute in H. discriminate H.
Qed.


(** * More of the code *)

(** ** Midnights and the schedule *)

Lemma civil_date_constant offset c t :
  (∀ t, offset t = c) → civil_date offset t = (t + c) `div` usecs_per_day.
Proof. intros Hc. unfold civil_date. by rewrite Hc. Qed.

(** Two instants [b <= a] fall on different days exactly when a day
    boundary lies in [(b, a]]. *)
Lemma day_boundary_between a b :
  b <= a →
  a `div` usecs_per_day ≠ b `div` usecs_per_day ↔
  ∃ k, b < k * usecs_per_day <= a.
Proof.
  intros Hba. unfold usecs_per_day. split.
  - intros Hne. exists (a `div` 86400000000).
    assert (b `div` 86400000000 <= a `div` 86400000000)
      by (apply Z.div_le_mono; lia).
    pose proof (Z.mul_div_le a 86400000000).
    pose proof (Z.mod_pos_bound b 86400000000).
    pose proof (Z.div_mod b 86400000000).
    nia.
  - intros (k & Hlo & Hhi) Heq.
    assert (k <= a `div` 86400000000)
      by (apply Z.div_le_lower_bound; lia).
    assert (b `div` 86400000000 < k)
      by (apply Z.div_lt_upper_bound; lia).
    lia.
Qed.

(** In a zone whose offset does not change, and for a window that is
    not negative, the detector is true exactly when a local midnight
    lies in the window [(now - window, now]]. *)
Theorem detect_iff_midnight_in_window (offset : timestamptz → Z) (c : Z)
    (now : timestamptz) (window_minutes : Z) :
  (∀ t, offset t = c) →
  0 <= window_minutes →
  detect offset now window_minutes ↔
  ∃ m, local_midnight offset m
       ∧ now - make_interval_mins window_minutes < m <= now.
Proof.
  intros Hc Hw. unfold detect, local_midnight, make_interval_mins.
  rewrite !(civil_date_constant offset c) by done.
  assert (now - window_minutes * usecs_per_minute + c <= now + c) as Hle
    by (unfold usecs_per_minute; lia).
  rewrite (day_boundary_between _ _ Hle). split.
  - intros (k & Hlo & Hhi). exists (k * usecs_per_day - c).
    rewrite Hc. split; [| lia].
    replace (k * usecs_per_day - c + c) with (k * usecs_per_day) by lia.
    apply Z.mod_mul. done.
  - intros (m & Hm & Hlo & Hhi). rewrite Hc in Hm.
    exists ((m + c) `div` usecs_per_day).
    pose proof (Z.div_mod (m + c) usecs_per_day) as Hdm.
    rewrite Hm in Hdm. unfold usecs_per_day in *. lia.
Qed.

Lemma detect_iff_midnight_in_window_witness :
  detect (λ _, -5 * Example.hour) Example.t_0505 30 ↔
  ∃ m, local_midnight (λ _, -5 * Example.hour) m
       ∧ Example.t_0505 - make_interval_mins 30 < m <= Example.t_0505.
Proof.
  apply (detect_iff_midnight_in_window (λ _, -5 * Example.hour)
           (-5 * Example.hour) Example.t_0505 30).
  - intros t. reflexivity.
  - lia.
Defined.

Lemma cron_fires_lattice k :
  cron_fires ((15 * k + 5) * usecs_per_minute) = true.
Proof.
  unfold cron_fires, cron_minutes, usecs_per_minute.
  rewrite andb_true_iff, !bool_decide_eq_true. split.
  - apply Z.mod_mul. done.
  - rewrite Z.div_mul by done.
    pose proof (Z.div_mod k 4) as Hk.
    pose proof (Z.mod_pos_bound k 4) as Hb.
    set (j := k `div` 4) in *. set (r := k `mod` 4) in *.
    assert (r = 0 ∨ r = 1 ∨ r = 2 ∨ r = 3) as Hr by lia.
    set_unfold.
    destruct Hr as [Hr | [Hr | [Hr | Hr]]]; rewrite Hr in Hk.
    + left. symmetry. apply (Z.mod_unique_pos _ _ j); lia.
    + right. left. symmetry. apply (Z.mod_unique_pos _ _ j); lia.
    + do 2 right. left. symmetry. apply (Z.mod_unique_pos _ _ j); lia.
    + do 3 right. left. symmetry. apply (Z.mod_unique_pos _ _ j); lia.
Qed.

Lemma cron_fires_inv t :
  cron_fires t = true → ∃ k, t = (15 * k + 5) * usecs_per_minute.
Proof.
  unfold cron_fires, cron_minutes, usecs_per_minute.
  rewrite andb_true_iff, !bool_decide_eq_true.
  intros [Hmin Hin].
  pose proof (Z.div_mod t 60000000) as Ht.
  pose proof (Z.div_mod (t `div` 60000000) 60) as Hh.
  set (q := t `div` 60000000) in *. set (h := q `div` 60) in *.
  set_unfold in Hin.
  destruct Hin as [Hin | [Hin | [Hin | [Hin | []]]]]; rewrite Hin in Hh.
  - exists (4 * h). lia.
  - exists (4 * h + 1). lia.
  - exists (4 * h + 2). lia.
  - exists (4 * h + 3). lia.
Qed.

(** The four minutes of the schedule make one firing every 15 minutes,
    5 minutes after each quarter of an hour. *)
Theorem cron_fires_every_15_minutes (t : timestamptz) :
  cron_fires t = true ↔ ∃ k, t = (15 * k + 5) * usecs_per_minute.
Proof.
  split; [apply cron_fires_inv |].
  intros [k ->]. apply cron_fires_lattice.
Qed.

(** The first firing at or after an instant comes less than 15 minutes
    after it. *)
Lemma next_firing m :
  ∃ k, m <= (15 * k + 5) * usecs_per_minute < m + make_interval_mins 15.
Proof.
  unfold make_interval_mins, usecs_per_minute.
  exists (- ((300000000 - m) `div` 900000000)).
  pose proof (Z.div_mod (300000000 - m) 900000000) as Hd.
  pose proof (Z.mod_pos_bound (300000000 - m) 900000000) as Hb.
  lia.
Qed.

Lemma midnight_in_window_detect offset c m now window_minutes :
  (∀ t, offset t = c) →
  local_midnight offset m →
  now - make_interval_mins window_minutes < m <= now →
  detect offset now window_minutes.
Proof.
  intros Hc Hm [Hlo Hhi]. unfold detect, local_midnight, make_interval_mins in *.
  rewrite !(civil_date_constant offset c) by done. rewrite Hc in Hm.
  apply day_boundary_between; [lia |].
  exists ((m + c) `div` usecs_per_day).
  pose proof (Z.div_mod (m + c) usecs_per_day) as Hdm.
  rewrite Hm in Hdm. unfold usecs_per_day in *. lia.
Qed.

Lemma detect_midnight_in_window offset c now window_minutes :
  (∀ t, offset t = c) →
  0 <= window_minutes →
  detect offset now window_minutes →
  ∃ k, now - make_interval_mins window_minutes + c
       < k * usecs_per_day <= now + c.
Proof.
  intros Hc Hw. unfold detect, make_interval_mins.
  rewrite !(civil_date_constant offset c) by done.
  apply day_boundary_between. unfold usecs_per_minute. lia.
Qed.

Lemma date_change_in_window_detect offset m now window_minutes :
  (∀ a b, a <= b → civil_date offset a <= civil_date offset b) →
  civil_date offset (m - 1) ≠ civil_date offset m →
  now - make_interval_mins window_minutes < m <= now →
  detect offset now window_minutes.
Proof.
  intros Hmono Hm [Hlo Hhi]. unfold detect, make_interval_mins in *.
  assert (civil_date offset (now - window_minutes * usecs_per_minute)
          <= civil_date offset (m - 1)) by (apply Hmono; lia).
  assert (civil_date offset (m - 1) <= civil_date offset m)
    by (apply Hmono; lia).
  assert (civil_date offset m <= civil_date offset now) by (by apply Hmono).
  lia.
Qed.

(** With the schedule and the window of the migration, every change of
    the civil date of a zone is followed, less than 15 minutes later, by
    a firing of the job, and the detector is true for that run even when
    it starts up to 15 minutes late.  This holds for every zone whose
    civil date never goes back, with or without daylight saving time. *)
Theorem schedule_catches_every_date_change (offset : timestamptz → Z)
    (m : timestamptz) :
  (∀ a b, a <= b → civil_date offset a <= civil_date offset b) →
  civil_date offset (m - 1) ≠ civil_date offset m →
  ∃ t, cron_fires t = true
       ∧ m <= t < m + make_interval_mins 15
       ∧ ∀ delay, 0 <= delay < make_interval_mins 15 →
                  detect offset (t + delay) 30.
Proof.
  intros Hmono Hm. destruct (next_firing m) as (k & Hlo & Hhi).
  exists ((15 * k + 5) * usecs_per_minute).
  split; [apply cron_fires_lattice |]. split; [done |].
  intros delay [Hd0 Hd1].
  apply (date_change_in_window_detect offset m); [done | done |].
  unfold make_interval_mins, usecs_per_minute in *. lia.
Qed.

Lemma schedule_catches_every_date_change_witness :
  ∃ t, cron_fires t = true
       ∧ DstExample.next_midnight <= t
         < DstExample.next_midnight + make_interval_mins 15
       ∧ ∀ delay, 0 <= delay < make_interval_mins 15 →
                  detect DstExample.offset (t + delay) 30.
Proof.
  apply (schedule_catches_every_date_change DstExample.offset
           DstExample.next_midnight).
  - intros a b Hab. unfold civil_date, DstExample.offset,
      DstExample.fall_back_at.
    repeat case_bool_decide; try lia.
    + apply Z.div_le_mono; [done | lia].
    + transitivity 0.
      * apply Z.lt_succ_r, Z.div_lt_upper_bound; unfold usecs_per_day; lia.
      * apply Z.div_pos; unfold usecs_per_day; lia.
    + apply Z.div_le_mono; [done | lia].
  - vm_compute. discriminate.
Defined.

(** Around a local midnight of such a zone the detector is true at
    exactly two firings of the job: the first one after the midnight
    and the one 15 minutes later.  The second detection is what the
    dedupe table has to absorb. *)
Theorem midnight_detected_by_two_firings (offset : timestamptz → Z) (c : Z)
    (m : timestamptz) :
  (∀ t, offset t = c) →
  local_midnight offset m →
  ∃ t, cron_fires t = true
       ∧ m <= t < m + make_interval_mins 15
       ∧ ∀ t', cron_fires t' = true →
               m - 12 * 3600000000 <= t' < m + 12 * 3600000000 →
               (detect offset t' 30 ↔
                t' = t ∨ t' = t + make_interval_mins 15).
Proof.
  intros Hc Hm. destruct (next_firing m) as (k & Hlo & Hhi).
  exists ((15 * k + 5) * usecs_per_minute).
  split; [apply cron_fires_lattice |]. split; [done |].
  intros t' Hfires Hnear. apply cron_fires_inv in Hfires as [k' ->].
  split.
  - intros Hdet.
    apply (detect_midnight_in_window offset c) in Hdet as (j & Hj1 & Hj2);
      [| done | lia].
    unfold local_midnight in Hm. rewrite Hc in Hm.
    pose proof (Z.div_mod (m + c) usecs_per_day) as Hdm. rewrite Hm in Hdm.
    set (j0 := (m + c) `div` usecs_per_day) in *.
    unfold make_interval_mins, usecs_per_minute, usecs_per_day in *.
    assert (j = j0) as -> by lia.
    assert (k' = k ∨ k' = k + 1) as [-> | ->] by lia; [by left | right; lia].
  - intros Ht'.
    apply (midnight_in_window_detect offset c m); [done | done |].
    unfold make_interval_mins, usecs_per_minute in *. lia.
Qed.

Lemma midnight_detected_by_two_firings_witness :
  ∃ t, cron_fires t = true
       ∧ 5 * Example.hour <= t < 5 * Example.hour + make_interval_mins 15
       ∧ ∀ t', cron_fires t' = true →
               5 * Example.hour - 12 * 3600000000 <= t'
               < 5 * Example.hour + 12 * 3600000000 →
               (detect (λ _, -5 * Example.hour) t' 30 ↔
                t' = t ∨ t' = t + make_interval_mins 15).
Proof.
  apply (midnight_detected_by_two_firings (λ _, -5 * Example.hour)
           (-5 * Example.hour) (5 * Example.hour)).
  - intros t. reflexivity.
  - reflexivity.
Defined.

(** ** Won claims, calls and rows of a tick *)

Lemma won_pairs_snoc_won tr u d :
  won_pairs (tr ++ [EClaim u d true]) = won_pairs tr ++ [(u, d)].
Proof. unfold won_pairs. by rewrite omap_app. Qed.

Lemma won_pairs_snoc_lost tr u d :
  won_pairs (tr ++ [EClaim u d false]) = won_pairs tr.
Proof. unfold won_pairs. rewrite omap_app. simpl. apply app_nil_r. Qed.

Lemma won_pairs_snoc_call tr u g l raised :
  won_pairs (tr ++ [ESessionize u g l raised]) = won_pairs tr.
Proof. unfold won_pairs. rewrite omap_app. simpl. apply app_nil_r. Qed.

Lemma elem_of_won_pairs tr u d :
  (u, d) ∈ won_pairs tr ↔ EClaim u d true ∈ tr.
Proof.
  unfold won_pairs. rewrite list_elem_of_omap. split.
  - intros (e & Hin & He). destruct e as [u' d' [] |]; simplify_eq. done.
  - intros Hin. by exists (EClaim u d true).
Qed.

Ltac trace_snoc :=
  rewrite ?won_pairs_snoc_call, ?won_pairs_snoc_won, ?won_pairs_snoc_lost,
    ?called_users_snoc_call, ?called_users_snoc_claim.

Section Rows.

Context {World : Type}.
Variable pg_timezone : string → option (timestamptz → Z).
Variable sessionize_recent_visits :
  uuid → Z → Z → World → result (Z * World).
Variables (gap lookback : Z) (now : timestamptz).

Local Abbreviation loop :=
  (for_loop pg_timezone sessionize_recent_visits gap lookback now).
Local Abbreviation ledger s := (user_midnight_runs (db s)).

(** The won claims are for pairwise different pairs, and their pairs
    are in the ledger from then on. *)
Lemma for_loop_won_distinct rs runs (s : exec World) :
  NoDup (won_pairs (events s)) →
  (∀ k, k ∈ won_pairs (events s) → k ∈ runs_keys (ledger s)) →
  NoDup (won_pairs (events (loop rs runs s).2))
  ∧ ∀ k, k ∈ won_pairs (events (loop rs runs s).2) →
         k ∈ runs_keys (ledger (loop rs runs s).2).
Proof.
  apply (for_loop_cases pg_timezone sessionize_recent_visits gap lookback now
    (λ rs runs s out,
       NoDup (won_pairs (events s)) →
       (∀ k, k ∈ won_pairs (events s) → k ∈ runs_keys (ledger s)) →
       NoDup (won_pairs (events out.2))
       ∧ ∀ k, k ∈ won_pairs (events out.2) → k ∈ runs_keys (ledger out.2)));
    simpl.
  - done.
  - done.
  - intros u zone rs' runs' s' d Hd Hin IH Hnd Hall.
    apply IH; simpl; by trace_snoc.
  - intros u zone rs' runs' s' d e Hd Hout Hs Hnd Hall. trace_snoc. split.
    + apply NoDup_app. split; [done |]. split; [| apply NoDup_singleton].
      intros k Hk Hk'. apply list_elem_of_singleton in Hk' as ->. auto.
    + intros k Hk. apply elem_of_runs_keys_snoc.
      apply elem_of_app in Hk as [Hk | Hk]; [left; auto |].
      apply list_elem_of_singleton in Hk as ->. by right.
  - intros u zone rs' runs' s' d n w e Hd Hout Hs Hi Hnd Hall. trace_snoc.
    split.
    + apply NoDup_app. split; [done |]. split; [| apply NoDup_singleton].
      intros k Hk Hk'. apply list_elem_of_singleton in Hk' as ->. auto.
    + intros k Hk. apply elem_of_runs_keys_snoc.
      apply elem_of_app in Hk as [Hk | Hk]; [left; auto |].
      apply list_elem_of_singleton in Hk as ->. by right.
  - intros u zone rs' runs' s' d n w Hd Hout Hs Hi IH Hnd Hall.
    apply IH; simpl; trace_snoc.
    + apply NoDup_app. split; [done |]. split; [| apply NoDup_singleton].
      intros k Hk Hk'. apply list_elem_of_singleton in Hk' as ->. auto.
    + intros k Hk. apply elem_of_runs_keys_snoc.
      apply elem_of_app in Hk as [Hk | Hk]; [left; auto |].
      apply list_elem_of_singleton in Hk as ->. by right.
Qed.

(** The downstream function is called for the users of the won claims,
    in their order, and for nobody else. *)
Lemma for_loop_called_users rs runs (s : exec World) :
  called_users (events s) = (won_pairs (events s)).*1 →
  called_users (events (loop rs runs s).2)
  = (won_pairs (events (loop rs runs s).2)).*1.
Proof.
  apply (for_loop_cases pg_timezone sessionize_recent_visits gap lookback now
    (λ rs runs s out,
       called_users (events s) = (won_pairs (events s)).*1 →
       called_users (events out.2) = (won_pairs (events out.2)).*1));
    simpl; intros; try done;
    repeat match goal with IH : _ → _ |- _ => apply IH; simpl end;
    trace_snoc; rewrite ?fmap_app; simpl; by f_equal.
Qed.

(** The ledger is extended at its end by the rows of the won claims;
    no row is changed or removed. *)
Lemma for_loop_appends base rs runs (s : exec World) :
  ledger s = base ++ (run_row now <$> won_pairs (events s)) →
  ledger (loop rs runs s).2
  = base ++ (run_row now <$> won_pairs (events (loop rs runs s).2)).
Proof.
  apply (for_loop_cases pg_timezone sessionize_recent_visits gap lookback now
    (λ rs runs s out,
       ledger s = base ++ (run_row now <$> won_pairs (events s)) →
       ledger out.2 = base ++ (run_row now <$> won_pairs (events out.2))));
    simpl; intros; try done;
    repeat match goal with IH : _ → _ |- _ => apply IH; simpl end;
    trace_snoc; rewrite ?fmap_app, ?app_assoc; simpl; by f_equal.
Qed.

Lemma for_loop_count_bound rs runs (s : exec World) n :
  (loop rs runs s).1 = Ok n → runs <= n <= runs + Z.of_nat (length rs).
Proof.
  revert n.
  apply (for_loop_cases pg_timezone sessionize_recent_visits gap lookback now
    (λ rs runs s out, ∀ n, out.1 = Ok n →
       runs <= n <= runs + Z.of_nat (length rs)));
    simpl; intros; simplify_eq; try lia;
    match goal with
    | IH : ∀ n, _ → _, Hn : _ = Ok _ |- _ => specialize (IH _ Hn)
    end; lia.
Qed.

End Rows.

Lemma select_crossing_no_zone pg_timezone v_now v_prev ps :
  (∀ p, p ∈ ps → timezone p = None) →
  select_crossing pg_timezone v_now v_prev ps = Ok [].
Proof.
  induction ps as [| p ps IH]; intros Hall; [done |].
  simpl. unfold where_clause. rewrite (Hall p) by left.
  rewrite IH; [done |]. intros q Hq. apply Hall. by right.
Qed.

Lemma select_crossing_unknown_zone pg_timezone v_now v_prev ps p zone :
  p ∈ ps → timezone p = Some zone → pg_timezone zone = None →
  ∃ zone', pg_timezone zone' = None
           ∧ select_crossing pg_timezone v_now v_prev ps
             = Raise (invalid_parameter_value zone').
Proof.
  intros Hp Htz Hz. induction ps as [| q ps IH]; [by apply elem_of_nil in Hp |].
  simpl. apply elem_of_cons in Hp as [<- | Hp].
  - exists zone. split; [done |]. unfold where_clause. rewrite Htz.
    by rewrite (crossed_midnight_unknown _ _ _ _ Hz).
  - destruct (IH Hp) as (zone' & Hz' & ->).
    destruct (where_clause pg_timezone v_now v_prev q) as [row | e] eqn:Hw.
    + by exists zone'.
    + unfold where_clause in Hw. destruct (timezone q) as [zq |]; [| done].
      destruct (pg_timezone zq) as [offset |] eqn:Hzq.
      * rewrite (crossed_midnight_zone _ _ _ _ _ Hzq) in Hw.
        by destruct (bool_decide _).
      * rewrite (crossed_midnight_unknown _ _ _ _ Hzq) in Hw.
        injection Hw as <-. by exists zq.
Qed.

Lemma select_crossing_length_zones pg_timezone v_now v_prev ps rs :
  select_crossing pg_timezone v_now v_prev ps = Ok rs →
  (length rs <= length (filter (λ p, is_Some (timezone p)) ps))%nat.
Proof.
  revert rs. induction ps as [| p ps IH]; intros rs; simpl.
  - by intros [= <-].
  - destruct (where_clause pg_timezone v_now v_prev p) as [row | e] eqn:Hw;
      [| done].
    destruct (select_crossing pg_timezone v_now v_prev ps) as [rs' | e];
      [| done].
    intros [= <-]. specialize (IH rs' eq_refl). rewrite length_app.
    rewrite filter_cons. unfold where_clause in Hw.
    destruct (timezone p) as [zone |] eqn:Htz.
    + rewrite decide_True by done. destruct row; simpl; lia.
    + injection Hw as <-. rewrite decide_False by (by intros [? ?]).
      simpl. lia.
Qed.

(** ** More on what a tick does *)

(** A tick over profiles none of which has a time zone (in particular
    over no profile at all) returns 0 and does nothing. *)
Theorem tick_without_zones {World : Type}
    (pg_timezone : string → option (timestamptz → Z))
    (sessionize_recent_visits : uuid → Z → Z → World → result (Z * World))
    (gap lookback window : Z) (now : timestamptz) (d : database World) :
  (∀ p, p ∈ profiles d → timezone p = None) →
  cron_job pg_timezone sessionize_recent_visits gap lookback window now d
  = (Ok 0, d, []).
Proof.
  intros Hall. unfold cron_job.
  by rewrite (run_sessionize_rows _ _ _ _ _ _ {| db := d; events := [] |} [])
    by (by apply select_crossing_no_zone).
Qed.

Lemma tick_without_zones_witness :
  cron_job Example.tzdb (Example.sessionize_failing Example.alice) 10 24 30
    Example.t_0505
    (Example.empty_db [{| id := Example.alice; timezone := None |};
                       {| id := Example.bob; timezone := None |}])
  = (Ok 0,
     Example.empty_db [{| id := Example.alice; timezone := None |};
                       {| id := Example.bob; timezone := None |}],
     []).
Proof.
  apply (tick_without_zones Example.tzdb
           (Example.sessionize_failing Example.alice) 10 24 30 Example.t_0505).
  intros p Hp. simpl in Hp.
  apply elem_of_cons in Hp as [-> | Hp]; [done |].
  apply list_elem_of_singleton in Hp as ->. done.
Defined.

(** A profile whose time zone is not a zone of the database is not
    skipped: the tick raises, returns no count, and leaves the database
    as it was, whatever the other profiles are. *)
Theorem unknown_zone_aborts_tick {World : Type}
    (pg_timezone : string → option (timestamptz → Z))
    (sessionize_recent_visits : uuid → Z → Z → World → result (Z * World))
    (gap lookback window : Z) (now : timestamptz) (d : database World)
    (p : profile) (zone : string) :
  p ∈ profiles d → timezone p = Some zone → pg_timezone zone = None →
  ∃ e tr,
    cron_job pg_timezone sessionize_recent_visits gap lookback window now d
    = (Raise e, d, tr).
Proof.
  intros Hp Htz Hz.
  destruct (select_crossing_unknown_zone pg_timezone now
              (now - make_interval_mins window) (profiles d) p zone Hp Htz Hz)
    as (zone' & _ & Hsel).
  destruct (run_sessionize_error pg_timezone sessionize_recent_visits gap
              lookback window now {| db := d; events := [] |} _ Hsel)
    as (ps_a & ps_b & rs_a & _ & _ & Hrun).
  unfold cron_job. rewrite Hrun.
  destruct (for_loop pg_timezone sessionize_recent_visits gap lookback now
              rs_a 0 {| db := d; events := [] |}) as [[n | e'] s'];
    by eexists _, _.
Qed.

Lemma unknown_zone_aborts_tick_witness :
  ∃ e tr,
    cron_job Example.tzdb Example.sessionize_ok 10 24 30 Example.t_0505
      (Example.empty_db
         [Example.bogota Example.alice;
          {| id := Example.bob; timezone := Some "Mars/Olympus" |}])
    = (Raise e,
       Example.empty_db
         [Example.bogota Example.alice;
          {| id := Example.bob; timezone := Some "Mars/Olympus" |}],
       tr).
Proof.
  apply (unknown_zone_aborts_tick Example.tzdb Example.sessionize_ok 10 24 30
           Example.t_0505 _
           {| id := Example.bob; timezone := Some "Mars/Olympus" |}
           "Mars/Olympus").
  - simpl. apply list_elem_of_further, list_elem_of_here.
  - reflexivity.
  - reflexivity.
Defined.

(** Whether it returns or raises, a tick wins claims only for pairwise
    different pairs that the ledger did not hold, and it calls the
    downstream function exactly for the users of those won claims, in
    their order: once per won claim and never without one. *)
Theorem calls_follow_new_distinct_claims {World : Type}
    (pg_timezone : string → option (timestamptz → Z))
    (sessionize_recent_visits : uuid → Z → Z → World → result (Z * World))
    (gap lookback window : Z) (now : timestamptz)
    (d d' : database World) (res : result Z) (tr : list event) :
  cron_job pg_timezone sessionize_recent_visits gap lookback window now d
  = (res, d', tr) →
  NoDup (won_pairs tr)
  ∧ (∀ k, k ∈ won_pairs tr → k ∉ runs_keys (user_midnight_runs d))
  ∧ called_users tr = (won_pairs tr).*1.
Proof.
  intros Ht.
  apply cron_job_inv in Ht as (ps_a & ps_b & rs & _ & _ & -> & _).
  split; [| split].
  - apply for_loop_won_distinct; simpl; [apply NoDup_nil_2 |].
    intros k Hk. by apply elem_of_nil in Hk.
  - intros [u dt] Hk. apply elem_of_won_pairs in Hk.
    apply for_loop_won_fresh in Hk as [Hk | Hk]; [| done].
    by apply elem_of_nil in Hk.
  - by apply for_loop_called_users.
Qed.

Lemma calls_follow_new_distinct_claims_witness :
  NoDup (won_pairs
           (cron_job Example.tzdb Example.sessionize_ok 10 24 30
              Example.t_0505 (CursorExample.unknown_after 10)).2)
  ∧ (∀ k, k ∈ won_pairs
            (cron_job Example.tzdb Example.sessionize_ok 10 24 30
               Example.t_0505 (CursorExample.unknown_after 10)).2 →
          k ∉ runs_keys (user_midnight_runs
                 (CursorExample.unknown_after 10)))
  ∧ called_users
      (cron_job Example.tzdb Example.sessionize_ok 10 24 30
         Example.t_0505 (CursorExample.unknown_after 10)).2
    = (won_pairs
         (cron_job Example.tzdb Example.sessionize_ok 10 24 30
            Example.t_0505 (CursorExample.unknown_after 10)).2).*1.
Proof.
  apply (calls_follow_new_distinct_claims Example.tzdb Example.sessionize_ok
           10 24 30 Example.t_0505
           (CursorExample.unknown_after 10)
           (cron_job Example.tzdb Example.sessionize_ok 10 24 30
              Example.t_0505 (CursorExample.unknown_after 10)).1.2
           (cron_job Example.tzdb Example.sessionize_ok 10 24 30
              Example.t_0505 (CursorExample.unknown_after 10)).1.1).
  vm_compute. reflexivity.
Defined.

(** A pair that a tick which returned has won is never won again: not
    by a later tick at any time, with any parameters and profiles, as
    long as the rows of the ledger are still there. *)
Theorem pair_won_at_most_once {World : Type}
    (pg_timezone : string → option (timestamptz → Z))
    (sessionize_recent_visits : uuid → Z → Z → World → result (Z * World))
    (gap1 lookback1 window1 : Z) (now1 : timestamptz)
    (gap2 lookback2 window2 : Z) (now2 : timestamptz)
    (d d1 later d2 : database World) (n : Z) (res2 : result Z)
    (tr1 tr2 : list event) :
  cron_job pg_timezone sessionize_recent_visits gap1 lookback1 window1 now1 d
  = (Ok n, d1, tr1) →
  (∀ k, k ∈ runs_keys (user_midnight_runs d1) →
        k ∈ runs_keys (user_midnight_runs later)) →
  cron_job pg_timezone sessionize_recent_visits gap2 lookback2 window2 now2
    later = (res2, d2, tr2) →
  ∀ k, k ∈ won_pairs tr1 → k ∉ won_pairs tr2.
Proof.
  intros Ht1 Hkept Ht2 [u dt] Hwon1 Hwon2.
  apply cron_job_Ok in Ht1 as (rs1 & _ & Hl1).
  pose proof (for_loop_won_distinct pg_timezone sessionize_recent_visits gap1
                lookback1 now1 rs1 0 {| db := d; events := [] |}) as Hinv.
  rewrite Hl1 in Hinv. simpl in Hinv.
  destruct Hinv as [_ Hin1]; [apply NoDup_nil_2 | |].
  { intros k Hk. by apply elem_of_nil in Hk. }
  apply cron_job_inv in Ht2 as (ps_a & ps_b & rs2 & _ & _ & -> & _).
  apply elem_of_won_pairs in Hwon2.
  apply for_loop_won_fresh in Hwon2 as [Hwon2 | Hfresh];
    [by apply elem_of_nil in Hwon2 |].
  apply Hfresh. simpl. auto.
Qed.

Lemma pair_won_at_most_once_witness :
  (Example.alice, 0)
  ∉ won_pairs
      (cron_job Example.tzdb Example.sessionize_ok 10 24 30
         (Example.t_0505 + make_interval_mins 15)
         CursorExample.unknown_after_ten_claimed).2.
Proof.
  apply (pair_won_at_most_once Example.tzdb Example.sessionize_ok
           10 24 30 Example.t_0505
           10 24 30 (Example.t_0505 + make_interval_mins 15)
           (Example.empty_db CursorExample.ten_bogota)
           (Example.tick_0505 CursorExample.ten_bogota).1.2
           CursorExample.unknown_after_ten_claimed
           (cron_job Example.tzdb Example.sessionize_ok 10 24 30
              (Example.t_0505 + make_interval_mins 15)
              CursorExample.unknown_after_ten_claimed).1.2
           10
           (cron_job Example.tzdb Example.sessionize_ok 10 24 30
              (Example.t_0505 + make_interval_mins 15)
              CursorExample.unknown_after_ten_claimed).1.1
           (Example.tick_0505 CursorExample.ten_bogota).2).
  - vm_compute. reflexivity.
  - intros k Hk. vm_compute in Hk. vm_compute. exact Hk.
  - vm_compute. reflexivity.
  - vm_compute. apply list_elem_of_here.
Defined.

(** A tick that returns leaves the rows the ledger had where they were
    and as they were, and adds after them one row per won claim, in the
    order of the claims, with the time of the tick as [ran_at]; the
    profiles are as before. *)
Theorem tick_appends_rows {World : Type}
    (pg_timezone : string → option (timestamptz → Z))
    (sessionize_recent_visits : uuid → Z → Z → World → result (Z * World))
    (gap lookback window : Z) (now : timestamptz)
    (d d' : database World) (n : Z) (tr : list event) :
  cron_job pg_timezone sessionize_recent_visits gap lookback window now d
  = (Ok n, d', tr) →
  user_midnight_runs d'
  = user_midnight_runs d ++ (run_row now <$> won_pairs tr)
  ∧ profiles d' = profiles d.
Proof.
  intros Ht. apply cron_job_Ok in Ht as (rs & _ & Hl).
  pose proof (for_loop_appends pg_timezone sessionize_recent_visits gap
                lookback now (user_midnight_runs d) rs 0
                {| db := d; events := [] |}) as Happ.
  pose proof (for_loop_profiles pg_timezone sessionize_recent_visits gap
                lookback now rs 0 {| db := d; events := [] |}) as Hps.
  rewrite Hl in Happ, Hps. simpl in Happ, Hps.
  split; [| done]. apply Happ. by rewrite app_nil_r.
Qed.

Lemma tick_appends_rows_witness :
  user_midnight_runs
    (Example.tick_0505
       [Example.bogota Example.alice; Example.utc Example.carol;
        Example.bogota Example.bob]).1.2
  = user_midnight_runs
      (Example.empty_db
         [Example.bogota Example.alice; Example.utc Example.carol;
          Example.bogota Example.bob])
    ++ (run_row Example.t_0505
          <$> won_pairs
                (Example.tick_0505
                   [Example.bogota Example.alice; Example.utc Example.carol;
                    Example.bogota Example.bob]).2)
  ∧ profiles
      (Example.tick_0505
         [Example.bogota Example.alice; Example.utc Example.carol;
          Example.bogota Example.bob]).1.2
    = profiles
        (Example.empty_db
           [Example.bogota Example.alice; Example.utc Example.carol;
            Example.bogota Example.bob]).
Proof.
  apply (tick_appends_rows Example.tzdb Example.sessionize_ok 10 24 30
           Example.t_0505 _ _ 2).
  reflexivity.
Defined.

(** After a tick that returned, the pairs in the ledger are those that
    were there before and those of the detected profiles: every profile
    with a known zone for which the detector is true has its pair, with
    the civil date at [now], in the ledger, and nothing else is added. *)
Theorem ledger_after_tick {World : Type}
    (pg_timezone : string → option (timestamptz → Z))
    (sessionize_recent_visits : uuid → Z → Z → World → result (Z * World))
    (gap lookback window : Z) (now : timestamptz)
    (d d' : database World) (n : Z) (tr : list event) :
  cron_job pg_timezone sessionize_recent_visits gap lookback window now d
  = (Ok n, d', tr) →
  ∀ k, k ∈ runs_keys (user_midnight_runs d') ↔
       k ∈ runs_keys (user_midnight_runs d)
       ∨ ∃ p zone offset,
           p ∈ profiles d ∧ timezone p = Some zone
           ∧ pg_timezone zone = Some offset
           ∧ detect offset now window
           ∧ k = (id p, civil_date offset now).
Proof.
  intros Ht k. apply cron_job_Ok in Ht as (rs & Hrs & Hl).
  pose proof (for_loop_rows pg_timezone sessionize_recent_visits gap
                lookback now rs 0 {| db := d; events := [] |}) as Hrows.
  pose proof (for_loop_ledger_grows pg_timezone sessionize_recent_visits gap
                lookback now rs 0 {| db := d; events := [] |}) as Hgrow.
  pose proof (λ u zone, for_loop_claimed_after pg_timezone
                sessionize_recent_visits gap lookback now rs 0
                {| db := d; events := [] |} n u zone) as Hafter.
  rewrite Hl in Hrows, Hgrow, Hafter. simpl in Hrows, Hgrow, Hafter. split.
  - unfold runs_keys at 1. intros Hk.
    apply list_elem_of_fmap in Hk as (r & -> & Hr).
    apply Hrows in Hr as [Hr | (zone & Hin & Hd & _)].
    + left. unfold runs_keys. apply list_elem_of_fmap. by exists r.
    + right.
      destruct (rows_local_date _ _ _ _ _ _ _ Hrs Hin)
        as (offset & Hz & Hd' & Hdet).
      apply (select_crossing_rows _ _ _ _ _ Hrs) in Hin
        as (p & Hp & Hid & Htz & _).
      exists p, zone, offset. repeat split; try done.
      unfold pkey. rewrite Hid. f_equal. congruence.
  - intros [Hk | (p & zone & offset & Hp & Htz & Hz & Hdet & ->)]; [auto |].
    assert ((id p, zone) ∈ rs) as Hin.
    { apply (select_crossing_rows _ _ _ _ _ Hrs). exists p.
      repeat split; try done.
      rewrite (crossed_midnight_zone _ _ _ _ _ Hz). f_equal.
      by apply bool_decide_eq_true. }
    destruct (Hafter (id p) zone eq_refl Hin) as (dt & Hd & Hk).
    rewrite (local_date_at_zone _ _ _ _ Hz) in Hd. by injection Hd as <-.
Qed.

Lemma ledger_after_tick_witness :
  (Example.bob, 0)
  ∈ runs_keys (user_midnight_runs
       (Example.tick_0505
          [Example.bogota Example.alice; Example.utc Example.carol;
           Example.bogota Example.bob]).1.2).
Proof.
  apply (ledger_after_tick Example.tzdb Example.sessionize_ok 10 24 30
           Example.t_0505
           (Example.empty_db
              [Example.bogota Example.alice; Example.utc Example.carol;
               Example.bogota Example.bob])
           _ 2
           (Example.tick_0505
              [Example.bogota Example.alice; Example.utc Example.carol;
               Example.bogota Example.bob]).2).
  - reflexivity.
  - right. exists (Example.bogota Example.bob), "America/Bogota",
      (λ _, -5 * Example.hour).
    split; [simpl; do 2 apply list_elem_of_further; apply list_elem_of_here |].
    split; [reflexivity |]. split; [reflexivity |].
    split; [| reflexivity].
    unfold detect. vm_compute. discriminate.
Defined.

(** The count a tick returns is not negative and not more than the
    number of profiles that have a time zone. *)
Theorem tick_count_bounds {World : Type}
    (pg_timezone : string → option (timestamptz → Z))
    (sessionize_recent_visits : uuid → Z → Z → World → result (Z * World))
    (gap lookback window : Z) (now : timestamptz)
    (d d' : database World) (n : Z) (tr : list event) :
  cron_job pg_timezone sessionize_recent_visits gap lookback window now d
  = (Ok n, d', tr) →
  0 <= n
  <= Z.of_nat (length (filter (λ p, is_Some (timezone p)) (profiles d))).
Proof.
  intros Ht. apply cron_job_Ok in Ht as (rs & Hrs & Hl).
  pose proof (for_loop_count_bound pg_timezone sessionize_recent_visits gap
                lookback now rs 0 {| db := d; events := [] |} n) as Hn.
  rewrite Hl in Hn. specialize (Hn eq_refl).
  apply select_crossing_length_zones in Hrs. lia.
Qed.

Lemma tick_count_bounds_witness :
  0 <= 2
  <= Z.of_nat (length (filter (λ p, is_Some (timezone p))
        (profiles (Example.empty_db
           [Example.bogota Example.alice; Example.utc Example.carol;
            {| id := 9%N; timezone := None |};
            Example.bogota Example.bob])))).
Proof.
  apply (tick_count_bounds Example.tzdb Example.sessionize_ok 10 24 30
           Example.t_0505 _
           (Example.tick_0505
              [Example.bogota Example.alice; Example.utc Example.carol;
               {| id := 9%N; timezone := None |};
               Example.bogota Example.bob]).1.2
           2
           (Example.tick_0505
              [Example.bogota Example.alice; Example.utc Example.carol;
               {| id := 9%N; timezone := None |};
               Example.bogota Example.bob]).2).
  reflexivity.
Defined.

(** ** The maintenance DELETE *)

(** The maintenance DELETE keeps, in their order, exactly the rows that
    are not older than the cutoff, reports the number of rows it
    removed, and removes nothing when it is run again. *)
Theorem delete_runs_before_keeps_recent (cutoff : timestamptz)
    (t : list midnight_run) :
  (∀ r, r ∈ (delete_runs_before cutoff t).1 ↔ r ∈ t ∧ cutoff <= ran_at r)
  ∧ (delete_runs_before cutoff t).1 `sublist_of` t
  ∧ (delete_runs_before cutoff t).2
    = Z.of_nat (length t)
      - Z.of_nat (length (delete_runs_before cutoff t).1)
  ∧ delete_runs_before cutoff (delete_runs_before cutoff t).1
    = ((delete_runs_before cutoff t).1, 0).
Proof.
  unfold delete_runs_before. simpl. split; [| split; [| split]].
  - intros r. rewrite list_elem_of_filter. split; intros [? ?]; split;
      try done; lia.
  - apply sublist_filter.
  - pose proof (filter_app_complement (λ r, ran_at r < cutoff) t) as Hperm.
    apply Permutation_length in Hperm. rewrite length_app in Hperm. lia.
  - f_equal.
    + induction t as [| r t IH]; [done |].
      rewrite filter_cons. case_decide; [| done].
      rewrite filter_cons, decide_True by done. by f_equal.
    + replace (filter (λ r, ran_at r < cutoff)
                 (filter (λ r, ¬ ran_at r < cutoff) t))
        with (@nil midnight_run); [done |].
      symmetry. induction t as [| r t IH]; [done |].
      rewrite filter_cons. case_decide; [| done].
      rewrite filter_cons, decide_False by done. done.
Qed.

(** The maintenance DELETE does not take away the row that keeps a
    candidate of a tick from being processed again, when its cutoff is
    at least the window older than the tick: in a zone whose civil date
    never goes back, a row recorded for the civil date at [now], for
    which the detector is true at [now], was recorded after
    [now - window]. *)
Theorem purge_keeps_rows_in_window (offset : timestamptz → Z)
    (r : midnight_run) (now cutoff : timestamptz) (window_minutes : Z)
    (t : list midnight_run) :
  (∀ a b, a <= b → civil_date offset a <= civil_date offset b) →
  0 <= window_minutes →
  cutoff <= now - make_interval_mins window_minutes →
  local_date r = civil_date offset (ran_at r) →
  local_date r = civil_date offset now →
  detect offset now window_minutes →
  r ∈ t →
  r ∈ (delete_runs_before cutoff t).1
  ∧ pkey r ∈ runs_keys (delete_runs_before cutoff t).1.
Proof.
  intros Hmono Hw Hcut Hrow Hnow Hdet Hr.
  assert (r ∈ (delete_runs_before cutoff t).1) as Hkept.
  { simpl. apply list_elem_of_filter. split; [| done]. intros Hold.
    unfold detect, make_interval_mins in *. apply Hdet.
    assert (civil_date offset (ran_at r)
            <= civil_date offset (now - window_minutes * usecs_per_minute))
      by (apply Hmono; lia).
    assert (civil_date offset (now - window_minutes * usecs_per_minute)
            <= civil_date offset now)
      by (apply Hmono; unfold usecs_per_minute; lia).
    lia. }
  split; [done |]. unfold runs_keys. apply list_elem_of_fmap. by exists r.
Qed.

Lemma purge_keeps_rows_in_window_witness :
  {| user_id := Example.alice; local_date := 0; ran_at := Example.t_0505 |}
  ∈ (delete_runs_before
       (Example.t_0505 + make_interval_mins 15 - 90 * usecs_per_day)
       [{| user_id := Example.bob; local_date := -100; ran_at := -8640000000000 |};
        {| user_id := Example.alice; local_date := 0;
           ran_at := Example.t_0505 |}]).1
  ∧ pkey {| user_id := Example.alice; local_date := 0;
            ran_at := Example.t_0505 |}
    ∈ runs_keys
        (delete_runs_before
           (Example.t_0505 + make_interval_mins 15 - 90 * usecs_per_day)
           [{| user_id := Example.bob; local_date := -100;
               ran_at := -8640000000000 |};
            {| user_id := Example.alice; local_date := 0;
               ran_at := Example.t_0505 |}]).1.
Proof.
  apply (purge_keeps_rows_in_window (λ _, -5 * Example.hour) _
           (Example.t_0505 + make_interval_mins 15) _ 30).
  - intros a b Hab. unfold civil_date. apply Z.div_le_mono; [done | lia].
  - lia.
  - unfold make_interval_mins, usecs_per_day, usecs_per_minute. lia.
  - reflexivity.
  - reflexivity.
  - unfold detect. vm_compute. discriminate.
  - apply list_elem_of_further, list_elem_of_here.
Defined.

(** ** Runs per user *)

Lemma agg_min_le l lo x : agg_min l = Some lo → x ∈ l → lo <= x.
Proof.
  revert lo. induction l as [| y l IH]; intros lo Hmin Hx;
    [by apply elem_of_nil in Hx |].
  simpl in Hmin. injection Hmin as <-.
  apply elem_of_cons in Hx as [-> | Hx].
  - destruct (agg_min l); lia.
  - destruct (agg_min l) as [m |] eqn:Hm.
    + specialize (IH m eq_refl Hx). lia.
    + destruct l; [by apply elem_of_nil in Hx | done].
Qed.

Lemma agg_max_ge l hi x : agg_max l = Some hi → x ∈ l → x <= hi.
Proof.
  revert hi. induction l as [| y l IH]; intros hi Hmax Hx;
    [by apply elem_of_nil in Hx |].
  simpl in Hmax. injection Hmax as <-.
  apply elem_of_cons in Hx as [-> | Hx].
  - destruct (agg_max l); lia.
  - destruct (agg_max l) as [m |] eqn:Hm.
    + specialize (IH m eq_refl Hx). lia.
    + destruct l; [by apply elem_of_nil in Hx | done].
Qed.

Lemma runs_of_user_dates_distinct u t :
  NoDup (runs_keys t) → NoDup (local_date <$> runs_of_user u t).
Proof.
  intros Hnd. apply (NoDup_fmap_1 (λ d : date, (u, d))).
  rewrite <- list_fmap_compose.
  assert (((λ d : date, (u, d)) ∘ local_date) <$> runs_of_user u t
          = pkey <$> runs_of_user u t) as ->.
  { apply list_fmap_ext. intros i r Hr. apply list_elem_of_lookup_2 in Hr.
    unfold runs_of_user in Hr. apply list_elem_of_filter in Hr as [<- _].
    done. }
  eapply sublist_NoDup; [exact Hnd |].
  apply fmap_sublist, sublist_filter.
Qed.

(** In a ledger with the key of the table, the group of a user in the
    runs-per-user query has at least one row and not more rows than
    there are days from its first to its last run date: a user is
    counted at most once per local date. *)
Theorem total_runs_within_span (u : uuid) (t : list midnight_run)
    (lo hi : date) :
  NoDup (runs_keys t) →
  first_run_date u t = Some lo →
  last_run_date u t = Some hi →
  1 <= total_runs u t <= hi - lo + 1.
Proof.
  intros Hnd Hlo Hhi. unfold total_runs, first_run_date, last_run_date in *.
  pose proof (runs_of_user_dates_distinct u t Hnd) as Hdates.
  set (l := local_date <$> runs_of_user u t) in *.
  assert (length (runs_of_user u t) = length l) as ->
    by (subst l; by rewrite length_fmap).
  split.
  - destruct l; [done | simpl; lia].
  - assert (l ⊆+ seqZ lo (hi - lo + 1)) as Hsub.
    { apply NoDup_submseteq; [done |]. intros x Hx. apply elem_of_seqZ.
      pose proof (agg_min_le l lo x Hlo Hx).
      pose proof (agg_max_ge l hi x Hhi Hx). lia. }
    apply submseteq_length in Hsub. rewrite length_seqZ in Hsub.
    assert (lo <= hi); [| lia].
    destruct l as [| x l'] eqn:Hl; [done |].
    pose proof (agg_min_le (x :: l') lo x Hlo (list_elem_of_here _ _)).
    pose proof (agg_max_ge (x :: l') hi x Hhi (list_elem_of_here _ _)). lia.
Qed.

Lemma total_runs_within_span_witness :
  1 <= total_runs Example.alice
         [{| user_id := Example.alice; local_date := 3; ran_at := 30 |};
          {| user_id := Example.bob; local_date := 3; ran_at := 31 |};
          {| user_id := Example.alice; local_date := 7; ran_at := 70 |}]
  <= 7 - 3 + 1.
Proof.
  apply (total_runs_within_span Example.alice _ 3 7).
  - unfold runs_keys. simpl. repeat constructor; set_solver.
  - reflexivity.
  - reflexivity.
Defined.

(** ** The badges of a user card *)

Section Badges.

Import UserCard.

Lemma keys_shared_badges (l : list string) : key <$> (shared_badge <$> l) = l.
Proof. rewrite <- list_fmap_compose. apply list_fmap_id. Qed.

Lemma keys_activity_badges (l : list string) : key <$> (activity_badge <$> l) = l.
Proof. rewrite <- list_fmap_compose. apply list_fmap_id. Qed.

Lemma outline_of_shared_badges (l : list string) :
  filter (λ b, badge_variant b = variant_outline) (shared_badge <$> l) = [].
Proof.
  induction l as [| x l IH]; [done |].
  by rewrite fmap_cons, filter_cons, decide_False.
Qed.

Lemma outline_of_activity_badges (l : list string) :
  filter (λ b, badge_variant b = variant_outline) (activity_badge <$> l)
  = activity_badge <$> l.
Proof.
  induction l as [| x l IH]; [done |].
  rewrite fmap_cons, filter_cons, decide_True by done. by rewrite IH.
Qed.

Lemma default_of_shared_badges (l : list string) :
  filter (λ b, badge_variant b = variant_default) (shared_badge <$> l)
  = shared_badge <$> l.
Proof.
  induction l as [| x l IH]; [done |].
  rewrite fmap_cons, filter_cons, decide_True by done. by rewrite IH.
Qed.

Lemma default_of_activity_badges (l : list string) :
  filter (λ b, badge_variant b = variant_default) (activity_badge <$> l) = [].
Proof.
  induction l as [| x l IH]; [done |].
  by rewrite fmap_cons, filter_cons, decide_False.
Qed.

Lemma texts_shared_badges (l : list string) : text <$> (shared_badge <$> l) = l.
Proof. rewrite <- list_fmap_compose. apply list_fmap_id. Qed.

Lemma texts_activity_badges (l : list string) : text <$> (activity_badge <$> l) = l.
Proof. rewrite <- list_fmap_compose. apply list_fmap_id. Qed.

(** When neither the activities nor the shared interests of a user
    repeat a string, no two badges of the card have the same React
    key. *)
Theorem interest_badge_keys_distinct (user : User) :
  NoDup (activities user) →
  (∀ shared, sharedInterests user = Some shared → NoDup shared) →
  NoDup (key <$> interest_badges user).
Proof.
  intros Hacts Hshared. unfold interest_badges.
  assert (∀ n, NoDup (key <$> (activity_badge <$> take n (activities user))))
    as Hplain.
  { intros n. rewrite keys_activity_badges.
    eapply sublist_NoDup; [exact Hacts | apply sublist_take]. }
  destruct (sharedInterests user) as [shared |] eqn:Hs; [| apply Hplain].
  case_bool_decide; [| apply Hplain].
  rewrite fmap_app, keys_shared_badges, keys_activity_badges.
  apply NoDup_app. split; [by apply Hshared |]. split.
  - intros x Hx Hx'. apply elem_of_take in Hx' as (i & Hx' & _).
    apply list_elem_of_lookup_2, list_elem_of_filter in Hx' as [Hout _]. done.
  - eapply sublist_NoDup; [exact Hacts |].
    etrans; [apply sublist_take | apply sublist_filter].
Qed.

Lemma interest_badge_keys_distinct_witness :
  NoDup (key <$> interest_badges
           {| activities := ["coffee"; "running"; "chess"; "yoga"];
              sharedInterests := Some ["running"; "books"] |}).
Proof.
  apply (interest_badge_keys_distinct
           {| activities := ["coffee"; "running"; "chess"; "yoga"];
              sharedInterests := Some ["running"; "books"] |}).
  - simpl. repeat constructor; set_solver.
  - intros shared [= <-]. repeat constructor; set_solver.
Defined.

Lemma filter_lookup_Some {A} (P : A → Prop) `{∀ x, Decision (P x)}
    (l : list A) (j : nat) (a : A) :
  filter P l !! j = Some a ↔
  ∃ k, l !! k = Some a ∧ P a ∧ length (filter P (take k l)) = j.
Proof.
  revert j. induction l as [| x l IH]; intros j.
  - split; [done |]. by intros (k & Hk & _).
  - rewrite filter_cons. destruct (decide (P x)) as [Hx | Hx].
    + destruct j as [| j]; simpl.
      * split.
        -- intros [= <-]. by exists 0%nat.
        -- intros ([| k] & Hk & Ha & Hlen); simpl in *; [done |].
           rewrite filter_cons, decide_True in Hlen by done. done.
      * rewrite IH. split.
        -- intros (k & Hk & Ha & Hlen). exists (S k). simpl.
           rewrite filter_cons, decide_True by done. simpl. by rewrite Hlen.
        -- intros ([| k] & Hk & Ha & Hlen); simpl in *; [done |].
           rewrite filter_cons, decide_True in Hlen by done.
           exists k. repeat split; try done. simpl in Hlen. lia.
    + rewrite IH. split.
      * intros (k & Hk & Ha & Hlen). exists (S k). simpl.
        by rewrite filter_cons, decide_False.
      * intros ([| k] & Hk & Ha & Hlen); simpl in *.
        -- by injection Hk as ->.
        -- rewrite filter_cons, decide_False in Hlen by done. by exists k.
Qed.

(** The list of badges, position by position.  With shared interests,
    the first badges are the shared interests in their order, as
    highlighted badges, and they are followed by at most two outline
    badges: the one at place [j] after them is the activity that is not
    a shared interest and has exactly [j] such activities before it.
    Without shared interests (the list is missing or empty) the badges
    are the outline badges of the first three activities. *)
Theorem interest_badges_shown (user : User) :
  match sharedInterests user with
  | Some (interest :: shared) =>
      (∀ i s, (interest :: shared) !! i = Some s →
              interest_badges user !! i = Some (shared_badge s))
      ∧ (∀ j b,
           interest_badges user !! (length (interest :: shared) + j)%nat
           = Some b ↔
           (j < 2)%nat
           ∧ ∃ k a,
               b = activity_badge a
               ∧ activities user !! k = Some a
               ∧ (a ∉ interest :: shared)
               ∧ length (filter (λ x, x ∉ interest :: shared)
                           (take k (activities user))) = j)
  | _ =>
      ∀ j b,
        interest_badges user !! j = Some b ↔
        (j < 3)%nat
        ∧ ∃ a, b = activity_badge a ∧ activities user !! j = Some a
  end.
Proof.
  unfold interest_badges.
  assert (∀ j b,
            (activity_badge <$> take 3 (activities user)) !! j = Some b ↔
            (j < 3)%nat
            ∧ ∃ a, b = activity_badge a ∧ activities user !! j = Some a)
    as Hplain.
  { intros j b. rewrite list_lookup_fmap_Some.
    setoid_rewrite lookup_take_Some. naive_solver. }
  destruct (sharedInterests user) as [[| interest shared] |] eqn:Hs;
    [done | | done].
  rewrite bool_decide_eq_true_2 by (simpl; lia). split.
  - intros i s Hi. apply lookup_app_l_Some.
    rewrite list_lookup_fmap, Hi. done.
  - intros j b. rewrite lookup_app_r by (rewrite length_fmap; lia).
    rewrite length_fmap.
    replace (length (interest :: shared) + j - length (interest :: shared))%nat
      with j by lia.
    rewrite list_lookup_fmap_Some.
    setoid_rewrite lookup_take_Some. setoid_rewrite filter_lookup_Some.
    split.
    + intros (a & -> & (k & Hk & Ha & Hlen) & Hj). split; [done |].
      by exists k, a.
    + intros (Hj & k & a & -> & Hk & Ha & Hlen). exists a.
      split; [done |]. split; [| done]. by exists k.
Qed.

End Badges.

(** ** Instances of the lemmas on returning ticks and on claims in turn *)

Lemma cron_job_returns_witness :
  ∃ n d' tr,
    cron_job Example.tzdb Example.sessionize_ok 10 24 30 Example.t_0505
      (Example.empty_db
         [Example.bogota Example.alice; Example.utc Example.carol;
          {| id := Example.bob; timezone := None |}])
    = (Ok n, d', tr).
Proof.
  apply (cron_job_returns Example.tzdb Example.sessionize_ok 10 24 30
           Example.t_0505).
  - intros p zone Hp Htz. simpl in Hp.
    apply elem_of_cons in Hp as [-> | Hp];
      [injection Htz as <-; by eexists |].
    apply elem_of_cons in Hp as [-> | Hp];
      [injection Htz as <-; by eexists |].
    apply list_elem_of_singleton in Hp as ->. discriminate Htz.
  - intros u w. by eexists.
  - simpl. unfold int4_max. lia.
Defined.

Lemma claim_in_turn_one_winner_witness :
  claim_in_turn [7; 8; 9] Example.alice 0 []
  = true :: replicate (length [8; 9]) false.
Proof.
  apply (claim_in_turn_one_winner 7 [8; 9] Example.alice 0 []).
  unfold runs_keys. simpl. apply not_elem_of_nil.
Defined.

(** ** A window that is too short *)

(** The job fires 5 minutes after the quarters of the hour.  In a zone
    whose offset is a constant multiple of 15 minutes, local midnight
    falls on a quarter of an hour, so with a window of 5 minutes or less
    the detector is false at every firing of the job: the scheduler then
    never selects anybody of that zone, and nothing reports it. *)
Theorem short_window_never_detects (offset : timestamptz → Z) (j : Z)
    (t : timestamptz) (window_minutes : Z) :
  (∀ t, offset t = j * make_interval_mins 15) →
  cron_fires t = true →
  0 <= window_minutes <= 5 →
  ¬ detect offset t window_minutes.
Proof.
  intros Hc Hfires [Hw0 Hw5] Hdet.
  apply (detect_midnight_in_window offset (j * make_interval_mins 15)) in Hdet
    as (k & Hlo & Hhi); [| done | done].
  apply cron_fires_inv in Hfires as [k' ->].
  unfold make_interval_mins, usecs_per_minute, usecs_per_day in *. lia.
Qed.

Lemma short_window_never_detects_witness :
  ¬ detect (λ _, -5 * Example.hour) Example.t_0505 5.
Proof.
  apply (short_window_never_detects (λ _, -5 * Example.hour) (-20)
           Example.t_0505 5).
  - intros t. reflexivity.
  - reflexivity.
  - lia.
Defined.
